(** * Tag resource handlers and blog components of nextjs15-blog-post

    A shallow embedding of

    - the route handlers [GET], [PATCH] and [DELETE] of
      [/api/admin/tags/[id]] (the route file of the tag resource), and
    - the [PostCard] component of [src/app/blog/components.tsx].

    The handlers are [async] functions that talk to a Prisma client inside
    one [try]/[catch]; they are embedded in a small state-and-exception
    monad over an in-memory image of the database.  The component is a pure
    function from props to a React element tree. *)

From Stdlib Require Import ZArith.
From stdpp Require Import gmap strings list fin_maps pretty.

Local Open Scope string_scope.
Set Warnings "-register-all".

(** ** JavaScript values that cross the handler boundary *)

Module Js.

(** A parsed JSON document, as [request.json()] resolves to. *)
Inductive json : Type :=
| JNull
| JBool (b : bool)
| JNum (z : Z)
| JStr (s : string)
| JArr (items : list json)
| JObj (fields : list (string * json)).

(** Truthiness of a string: only the empty string is falsy. *)
Definition truthy (s : string) : bool := negb (String.eqb s "").

(** [a || b] for [a : string | null] and a string [b] *)
Definition or_else (a : option string) (b : string) : string :=
  match a with
  | Some s => if truthy s then s else b
  | None => b
  end.

(** Truthiness of a [string | undefined]. *)
Definition truthy_opt (o : option string) : bool :=
  match o with
  | Some s => truthy s
  | None => false
  end.

End Js.

(** ** The persistence client

    [prisma.tag] over an in-memory database.  A tag row is keyed by its
    primary key [id]; the posts of a tag are the rows of the relation table
    that mention it, and [_count.posts] is computed at read time. *)

Module Prisma.

Record TagRow : Type := { name : string; slug : string }.

Record Database : Type := {
  tag : gmap string TagRow;
  (** pairs (post id, tag id) *)
  postTags : gset (string * string)
}.

(** What [include: { _count: { select: { posts: true } } }] returns. *)
Record TagWithCount : Type := {
  tw_id : string;
  tw_name : string;
  tw_slug : string;
  tw_count_posts : nat
}.

(** The errors a query can reject with. *)
Inductive Exn : Type :=
| RecordNotFound       (* P2025: update or delete of a row that is absent *)
| UniqueConstraint     (* P2002 *)
| SyntaxError.         (* request.json() on a body that is not JSON *)

(** An awaited computation: it reads and writes the database and either
    resolves to a value or rejects.  Writes made before a rejection stay:
    the handlers open no transaction. *)
Definition Async (A : Type) : Type := Database → (Exn + A) * Database.

Definition ret {A} (a : A) : Async A := λ db, (inr a, db).
Definition throw {A} (e : Exn) : Async A := λ db, (inl e, db).
Definition bind {A B} (m : Async A) (k : A → Async B) : Async B :=
  λ db, match m db with
        | (inr a, db') => k a db'
        | (inl e, db') => (inl e, db')
        end.
#[global] Instance async_ret : MRet Async := @ret.
#[global] Instance async_bind : MBind Async := λ A B k m, bind m k.

(** [try { ... } catch (error) { ... }] around a whole handler body: the
    handler always resolves. *)
Definition try_catch {A} (m : Async A) (h : Exn → A) : Database → A * Database :=
  λ db, match m db with
        | (inr a, db') => (a, db')
        | (inl e, db') => (h e, db')
        end.

Definition count_posts (db : Database) (id : string) : nat :=
  size (filter (λ pt, pt.2 = id) (postTags db)).

Definition with_count (db : Database) (id : string) (r : TagRow) : TagWithCount :=
  {| tw_id := id; tw_name := name r; tw_slug := slug r;
     tw_count_posts := count_posts db id |}.

(** [prisma.tag.findUnique({ where: { id }, include: { _count } })] *)
Definition findUnique (id : string) : Async (option TagWithCount) :=
  λ db, (inr (with_count db id <$> tag db !! id), db).

(** One disjunct of the [OR] list of the uniqueness query. *)
Inductive Cond : Type :=
| NameIs (n : string)
| SlugIs (s : string).

Definition cond_holds (r : TagRow) (c : Cond) : bool :=
  match c with
  | NameIs n => String.eqb (name r) n
  | SlugIs s => String.eqb (slug r) s
  end.

(** The filter [{ AND: [{ NOT: { id } }, { OR: conds }] }] on one row. *)
Definition where_matches (id : string) (conds : list Cond) (kr : string * TagRow) : bool :=
  negb (String.eqb kr.1 id) && existsb (cond_holds kr.2) conds.

(** [prisma.tag.findFirst({ where: { AND: [{ NOT: { id } }, { OR }] } })] *)
Definition findFirst (id : string) (conds : list Cond) : Async (option (string * TagRow)) :=
  λ db, (inr (find (where_matches id conds) (map_to_list (tag db))), db).

(** [Prisma.TagUpdateInput], restricted to the two columns the handler sets. *)
Record TagUpdateInput : Type := {
  set_name : option string;
  set_slug : option string
}.

Definition apply_update (d : TagUpdateInput) (r : TagRow) : TagRow :=
  {| name := default (name r) (set_name d); slug := default (slug r) (set_slug d) |}.

(** The columns written by [d], as conditions on the other rows. *)
Definition written (d : TagUpdateInput) : list Cond :=
  match set_name d with Some n => [NameIs n] | None => [] end ++
  match set_slug d with Some s => [SlugIs s] | None => [] end.

Section Client.

(** Whether the [Tag] table declares [name] and [slug] unique.  The
    schema of the database is not part of the handler's file; every
    result below holds for both answers. *)
Variable unique_columns : bool.

(** [prisma.tag.update({ where: { id }, data, include: { _count } })] *)
Definition update (id : string) (d : TagUpdateInput) : Async TagWithCount :=
  λ db, match tag db !! id with
        | None => (inl RecordNotFound, db)
        | Some r =>
            if unique_columns &&
               bool_decide (is_Some (find (where_matches id (written d)) (map_to_list (tag db))))
            then (inl UniqueConstraint, db)
            else
              let db' := {| tag := <[id := apply_update d r]> (tag db);
                            postTags := postTags db |} in
              (inr (with_count db' id (apply_update d r)), db')
        end.

(** [prisma.tag.delete({ where: { id } })]: the row goes, and with it the
    rows of the relation table that mention it. *)
Definition delete_ (id : string) : Async TagRow :=
  λ db, match tag db !! id with
        | None => (inl RecordNotFound, db)
        | Some r =>
            (inr r, {| tag := delete id (tag db);
                       postTags := filter (λ pt, pt.2 ≠ id) (postTags db) |})
        end.

End Client.

End Prisma.

(** ** The route handlers of [/api/admin/tags/[id]] *)

Module TagRoute.
Import Js Prisma.

(** The session [auth()] resolves to. *)
Record User : Type := {
  user_id : option string;
  user_name : option string;
  user_email : option string
}.

Record Session : Type := { user : option User }.

(** [session?.user] *)
Definition session_user (s : option Session) : option User := s ≫= user.

(** [session?.user?.id] *)
Definition session_user_id (s : option Session) : option string :=
  session_user s ≫= user_id.

(** The body of a JSON response. *)
Inductive Payload : Type :=
| ErrorBody (error : string)
| InvalidInputBody (error : string) (details : json)
| TagBody (t : TagWithCount)
| MessageBody (message : string).

Record NextResponse : Type := { body : Payload; status : Z }.

(** [NextResponse.json(body)] and [NextResponse.json(body, { status })] *)
Definition json_ok (b : Payload) : NextResponse := {| body := b; status := 200 |}.
Definition json_status (b : Payload) (st : Z) : NextResponse := {| body := b; status := st |}.

(** The data of a successful [safeParse]: [{ name?: string, slug?: string }]. *)
Record TagUpdateData : Type := {
  data_name : option string;
  data_slug : option string
}.

(** The [catch] block shared by the three handlers. *)
Definition internal_error : Exn → NextResponse :=
  λ _, json_status (ErrorBody "Internal server error") 500.

(** A route handler, run to its response against a database. *)
Definition Handler : Type := Database → NextResponse * Database.

(** [GET]: lines 9-43 *)
Definition GET (auth : option Session) (id : string) : Handler :=
  try_catch
    (if negb (bool_decide (is_Some (session_user auth))) then
       ret (json_status (ErrorBody "Unauthorized") 401)
     else
       t ← findUnique id ;
       match t with
       | None => ret (json_status (ErrorBody "Tag not found") 404)
       | Some t => ret (json_ok (TagBody t))
       end)
    internal_error.

Section Handlers.

(** [TagUpdateSchema.omit({ id: true }).safeParse]: the schema lives in
    [@/lib/validations]; the handler only relies on the shape of the
    result, an error description or the parsed data. *)
Variable safeParse : json → json + TagUpdateData.

Variable unique_columns : bool.

(** The [OR] list of line 78. *)
Definition or_conditions (name slug : option string) : list Cond :=
  (if truthy_opt name then [NameIs (default "" name)] else []) ++
  (if truthy_opt slug then [SlugIs (default "" slug)] else []).

(** [PATCH]: lines 46-116.  [request_json] is [None] when the body of
    the request is not JSON, so that [request.json()] rejects. *)
Definition PATCH (auth : option Session) (request_json : option json) (id : string)
  : Handler :=
  try_catch
    (if negb (truthy_opt (session_user_id auth)) then
       ret (json_status (ErrorBody "Unauthorized") 401)
     else
       body ← (match request_json with
               | Some j => ret j
               | None => throw SyntaxError
               end) ;
       match safeParse body with
       | inl details =>
           ret (json_status (InvalidInputBody "Invalid input" details) 400)
       | inr data =>
           let name := data_name data in
           let slug := data_slug data in
           existingTag ← (if truthy_opt name || truthy_opt slug then
                            findFirst id (or_conditions name slug)
                          else ret None) ;
           match existingTag with
           | Some _ =>
               ret (json_status
                      (ErrorBody "A tag with this name or slug already exists") 400)
           | None =>
               let updateData := {| set_name := name; set_slug := slug |} in
               t ← update unique_columns id updateData ;
               ret (json_ok (TagBody t))
           end
       end)
    internal_error.

End Handlers.

(** [DELETE]: lines 119-165 *)
Definition DELETE (auth : option Session) (id : string) : Handler :=
  try_catch
    (if negb (bool_decide (is_Some (session_user auth))) then
       ret (json_status (ErrorBody "Unauthorized") 401)
     else
       t ← findUnique id ;
       match t with
       | None => ret (json_status (ErrorBody "Tag not found") 404)
       | Some t =>
           if (0 <? tw_count_posts t)%nat then
             ret (json_status (ErrorBody "Cannot delete tag with associated posts") 400)
           else
             _ ← delete_ id;
             ret (json_ok (MessageBody "Tag deleted successfully"))
       end)
    internal_error.

(** The responses of the handlers, by name. *)
Definition unauthorized : NextResponse :=
  json_status (ErrorBody "Unauthorized") 401.
Definition not_found : NextResponse :=
  json_status (ErrorBody "Tag not found") 404.
Definition has_posts : NextResponse :=
  json_status (ErrorBody "Cannot delete tag with associated posts") 400.
Definition already_exists : NextResponse :=
  json_status (ErrorBody "A tag with this name or slug already exists") 400.
Definition deleted : NextResponse :=
  json_ok (MessageBody "Tag deleted successfully").

(** Some other tag already carries a name or slug that the data supplies
    as a non-empty string. *)
Definition collides (db : Database) (id : string) (data : TagUpdateData) : Prop :=
  ∃ k r, tag db !! k = Some r ∧ k ≠ id ∧
         ((∃ n, data_name data = Some n ∧ n ≠ "" ∧ name r = n) ∨
          (∃ s, data_slug data = Some s ∧ s ≠ "" ∧ slug r = s)).

(** The value of an optional string field of an object: absent, a string,
    or ([None]) something else.  A repeated key takes its last value, as
    [JSON.parse] has it. *)
Definition optional_string (k : string) (fields : list (string * json))
  : option (option string) :=
  match find (λ kv, String.eqb kv.1 k) (rev fields) with
  | None => Some None
  | Some (_, JStr s) => Some (Some s)
  | Some _ => None
  end.

(** Modelled from the spec: the update schema of [@/lib/validations] with
    its [id] field omitted, which is not in the handler's file.  The spec
    gives the body it accepts as an object with an optional [name] (string)
    and an optional [slug] (string), all fields optional, unknown or extra
    fields rejected. *)
Definition TagUpdatePayloadSchema (j : json) : json + TagUpdateData :=
  match j with
  | JObj fields =>
      if forallb (λ kv, String.eqb kv.1 "name" || String.eqb kv.1 "slug") fields then
        match optional_string "name" fields, optional_string "slug" fields with
        | Some n, Some s => inr {| data_name := n; data_slug := s |}
        | _, _ => inl (JObj [("_errors", JArr [JStr "Expected string"])])
        end
      else inl (JObj [("_errors", JArr [JStr "Unrecognized key(s) in object"])])
  | _ => inl (JObj [("_errors", JArr [JStr "Expected object"])])
  end.

End TagRoute.

(** ** The blog listing components *)

Module Blog.
Import Js.

(** The props, as [PostCard] reads them. *)
Record Author : Type := { author_name : string; author_image : option string }.
Record Category : Type := {
  category_id : string;
  category_name : string;
  category_slug : string
}.
Record Tag : Type := { tag_id : string; tag_name : string }.
Record Post : Type := {
  post_slug : string;
  post_title : string;
  post_excerpt : option string;
  post_publishedAt : option Z;
  post_createdAt : Z;
  post_author : Author;
  post_categories : list Category;
  post_tags : list Tag
}.

(** What a component returns. *)
Inductive ReactNode : Type :=
| Element (type : string) (key : option string)
          (props : list (string * string)) (children : list ReactNode)
| Text (s : string)
| Items (nodes : list ReactNode)        (* an array child, as [.map] yields *)
| Empty.                                (* null, undefined or false *)

(** All elements of one type in a tree, in document order. *)
Fixpoint elements_of (ty : string) (n : ReactNode) : list ReactNode :=
  match n with
  | Element t _ _ cs =>
      (if String.eqb t ty then [n] else []) ++ flat_map (elements_of ty) cs
  | Items ns => flat_map (elements_of ty) ns
  | Text _ | Empty => []
  end.

Definition category_badge (c : Category) : ReactNode :=
  Element "Badge" (Some (category_id c))
    [("variant", "secondary"); ("className", "text-xs")]
    [Text (category_name c)].

Definition tag_badge (t : Tag) : ReactNode :=
  Element "Badge" (Some (tag_id t))
    [("variant", "outline"); ("className", "text-xs")]
    [Text (tag_name t)].

(** [post.excerpt && <CardDescription ...>{post.excerpt}</CardDescription>] *)
Definition excerpt_block (excerpt : option string) : ReactNode :=
  match excerpt with
  | None => Empty
  | Some s =>
      if truthy s then
        Element "CardDescription" None [("className", "mt-2 line-clamp-3")] [Text s]
      else Text s
  end.

Section Components.

(** The two helpers of [./utils]; a date is its time value. *)
Variable getAuthorInitial : string → string.
Variable formatPostDate : option Z → Z → string.

(** [PostCard]: lines 88-141 *)
Definition PostCard (post : Post) : ReactNode :=
  Element "Card" None
    [("className",
      "overflow-hidden hover:shadow-xl transition-all duration-300 border-0 shadow-lg")]
    [ Element "CardHeader" None [("className", "space-y-4")]
        [ Element "div" None [("className", "flex items-center space-x-2")]
            [ Element "Avatar" None [("className", "w-8 h-8")]
                [ Element "AvatarImage" None
                    [("src", or_else (author_image (post_author post)) "")]
                    [];
                  Element "AvatarFallback" None []
                    [Text (getAuthorInitial (author_name (post_author post)))] ];
              Element "div" None [("className", "flex-1 min-w-0")]
                [ Element "p" None [("className", "text-sm text-slate-600 truncate")]
                    [Text (author_name (post_author post))];
                  Element "div" None
                    [("className", "flex items-center text-xs text-slate-500")]
                    [ Element "CalendarDays" None [("className", "w-3 h-3 mr-1")] [];
                      Text (formatPostDate (post_publishedAt post)
                              (post_createdAt post)) ] ] ];
          Element "div" None []
            [ Element "CardTitle" None
                [("className", "line-clamp-2 hover:text-primary transition-colors")]
                [ Element "Link" None [("href", "/blog/" ++ post_slug post)]
                    [Text (post_title post)] ];
              excerpt_block (post_excerpt post) ] ];
      Element "CardContent" None [("className", "pt-0")]
        [ Element "div" None [("className", "flex flex-wrap gap-2 mb-4")]
            [ Items (category_badge <$> take 2 (post_categories post));
              Items (tag_badge <$> take 3 (post_tags post)) ];
          Element "Link" None [("href", "/blog/" ++ post_slug post)]
            [ Element "Button" None
                [("variant", "ghost"); ("size", "sm"); ("className", "w-full")]
                [Text "Read More"] ] ] ].

End Components.

End Blog.

(** ** Invariants of the tag table *)

Module TagInvariant.
Import Prisma.

(** No two tags share a name; no two tags share a slug. *)
Definition unique_names (db : Database) : Prop :=
  ∀ k1 k2 r1 r2,
    tag db !! k1 = Some r1 → tag db !! k2 = Some r2 → name r1 = name r2 → k1 = k2.

Definition unique_slugs (db : Database) : Prop :=
  ∀ k1 k2 r1 r2,
    tag db !! k1 = Some r1 → tag db !! k2 = Some r2 → slug r1 = slug r2 → k1 = k2.

(** Every row of the relation table mentions a tag that exists. *)
Definition referential (db : Database) : Prop :=
  ∀ p t, (p, t) ∈ postTags db → is_Some (tag db !! t).

End TagInvariant.

(** ** The category sidebar *)

Module Sidebar.
Import Js Blog.

(** A category with [_count.posts], as [CategoriesSidebar] reads it. *)
Record CategoryWithCount : Type := {
  category : Category;
  count_posts : nat
}.

(** A number child renders as its decimal text. *)
Definition number (n : nat) : ReactNode := Text (pretty n).

Definition sidebar_button (label : string) (count : nat) : ReactNode :=
  Element "Button" None
    [("variant", "ghost"); ("size", "sm"); ("className", "w-full justify-between")]
    [ Text label;
      Element "Badge" None [("variant", "outline")] [number count] ].

(** The link of one category: lines 67-80 *)
Definition category_link (c : CategoryWithCount) : ReactNode :=
  Element "Link" (Some (category_id (category c)))
    [("href", "/blog/category/" ++ category_slug (category c)); ("className", "block")]
    [ sidebar_button (category_name (category c)) (count_posts c) ].

(** [CategoriesSidebar]: lines 45-86 *)
Definition CategoriesSidebar (categories : list CategoryWithCount) (totalPosts : nat)
  : ReactNode :=
  Element "Card" None []
    [ Element "CardHeader" None []
        [ Element "CardTitle" None [("className", "text-lg")] [Text "Categories"] ];
      Element "CardContent" None []
        [ Element "div" None [("className", "space-y-2")]
            [ Element "Link" None [("href", "/blog"); ("className", "block")]
                [ sidebar_button "All Posts" totalPosts ];
              Items (category_link <$> categories) ] ] ].

(** The value of a prop of an element. *)
Definition prop (k : string) (n : ReactNode) : option string :=
  match n with
  | Element _ _ ps _ => snd <$> find (λ kv, String.eqb kv.1 k) ps
  | _ => None
  end.

End Sidebar.

(** ** Sample data *)

Module Samples.
Import Js Prisma TagRoute.

(** A signed-in administrator, and a session whose user has no [id]. *)
Definition admin : option Session :=
  Some {| user := Some {| user_id := Some "u1"; user_name := Some "Admin";
                          user_email := Some "admin@example.com" |} |}.
Definition anonymous_user : User :=
  {| user_id := None; user_name := Some "Guest"; user_email := None |}.
Definition guest : option Session := Some {| user := Some anonymous_user |}.

(** Tags [t1] (rust, one post) and [t2] (zig, no post). *)
Definition rust_zig : Database :=
  {| tag := <["t1" := {| name := "rust"; slug := "rust" |}]>
              (<["t2" := {| name := "zig"; slug := "zig" |}]> ∅);
     postTags := {[ ("p1", "t1") ]} |}.

(** Tag [t1] has an empty name. *)
Definition unnamed_zig : Database :=
  {| tag := <["t1" := {| name := ""; slug := "misc" |}]>
              (<["t2" := {| name := "zig"; slug := "zig" |}]> ∅);
     postTags := ∅ |}.

(** A post with three categories and five tags. *)
Definition long_post (excerpt : option string) : Blog.Post :=
  {| Blog.post_slug := "hello-world";
     Blog.post_title := "Hello, world";
     Blog.post_excerpt := excerpt;
     Blog.post_publishedAt := None;
     Blog.post_createdAt := 1700000000000;
     Blog.post_author := {| Blog.author_name := "Riky"; Blog.author_image := None |};
     Blog.post_categories :=
       (λ k, {| Blog.category_id := k; Blog.category_name := "cat-" ++ k;
                Blog.category_slug := k |}) <$> ["c1"; "c2"; "c3"];
     Blog.post_tags :=
       (λ k, {| Blog.tag_id := k; Blog.tag_name := "tag-" ++ k |})
         <$> ["t1"; "t2"; "t3"; "t4"; "t5"] |}.

End Samples.

(** * Properties *)

(** ** Truthiness *)

Module JsFacts.
Import Js.

Lemma truthy_true (s : string) : truthy s = true ↔ s ≠ "".
Proof.
  unfold truthy. rewrite negb_true_iff. split.
  - intros H ->. discriminate.
  - intros H. apply String.eqb_neq. exact H.
Qed.

Lemma truthy_opt_Some (s : string) : s ≠ "" → truthy_opt (Some s) = true.
Proof. intros H. simpl. by apply truthy_true. Qed.

Lemma truthy_opt_true (o : option string) :
  truthy_opt o = true ↔ ∃ s, o = Some s ∧ s ≠ "".
Proof.
  destruct o as [s|]; simpl.
  - rewrite truthy_true. split; [eauto | by intros (? & [= <-] & ?)].
  - split; [done | by intros (? & ? & ?)].
Qed.

End JsFacts.

(** ** The persistence client *)

Module PrismaFacts.
Import Js Prisma.

(** The uniqueness query finds a row exactly when some other row meets one
    of the conditions. *)
Lemma find_where_is_Some (id : string) (conds : list Cond) (m : gmap string TagRow) :
  is_Some (find (where_matches id conds) (map_to_list m)) ↔
  ∃ k r c, m !! k = Some r ∧ k ≠ id ∧ c ∈ conds ∧ cond_holds r c = true.
Proof.
  split.
  - intros [[k r] Hf]. apply find_some in Hf as [Hin Hw].
    apply list_elem_of_In, elem_of_map_to_list in Hin.
    unfold where_matches in Hw. simpl in Hw.
    apply andb_true_iff in Hw as [Hk Hc].
    apply negb_true_iff, String.eqb_neq in Hk.
    apply existsb_exists in Hc as (c & Hc & Hh).
    exists k, r, c. by rewrite list_elem_of_In.
  - intros (k & r & c & Hm & Hk & Hc & Hh).
    destruct (find _ _) as [kr|] eqn:Hf; [by eexists|].
    exfalso.
    assert (Hin : In (k, r) (map_to_list m))
      by by apply list_elem_of_In, elem_of_map_to_list.
    apply (find_none _ _ Hf) in Hin. revert Hin.
    unfold where_matches. simpl.
    apply String.eqb_neq in Hk as ->. simpl.
    apply not_false_iff_true, existsb_exists.
    exists c. by rewrite <- list_elem_of_In.
Qed.

Lemma find_where_nil (id : string) (m : gmap string TagRow) :
  find (where_matches id []) (map_to_list m) = None.
Proof.
  destruct (find _ _) eqn:Hf; [|done].
  assert (Hs : is_Some (find (where_matches id []) (map_to_list m))) by by eexists.
  apply find_where_is_Some in Hs as (? & ? & ? & _ & _ & Hc & _).
  by apply elem_of_nil in Hc.
Qed.

(** The rows of a concrete table, one case per row. *)
Ltac sample_row H :=
  apply elem_of_map_to_list in H;
  let l := fresh "l" in
  set (l := map_to_list _) in H; vm_compute in l; subst l;
  repeat (apply elem_of_cons in H as [[= -> ->]|H]);
  [..|by apply elem_of_nil in H].

End PrismaFacts.

(** ** The route handlers *)

Module TagRouteSpec.
Import Js Prisma TagRoute JsFacts PrismaFacts.

Lemma session_gate (auth : option Session) :
  is_Some (session_user auth) →
  negb (bool_decide (is_Some (session_user auth))) = false.
Proof. intros H. by rewrite bool_decide_eq_true_2. Qed.

Lemma GET_found (auth : option Session) (id : string) (db : Database) (r : TagRow) :
  is_Some (session_user auth) → tag db !! id = Some r →
  GET auth id db = (json_ok (TagBody (with_count db id r)), db).
Proof.
  intros Hs Hr. unfold GET, try_catch. rewrite session_gate by done.
  unfold mbind, async_bind, bind, findUnique. by rewrite Hr.
Qed.

Lemma GET_missing (auth : option Session) (id : string) (db : Database) :
  is_Some (session_user auth) → tag db !! id = None →
  GET auth id db = (not_found, db).
Proof.
  intros Hs Hr. unfold GET, try_catch. rewrite session_gate by done.
  unfold mbind, async_bind, bind, findUnique. by rewrite Hr.
Qed.

(** C1. Delete of an existing tag that still has posts, by a caller with a
    session: the answer is 400 "Cannot delete tag with associated posts",
    the database is left as it was, and the tag can still be retrieved. *)
Theorem delete_guard (auth : option Session) (id : string) (db : Database) (r : TagRow) :
  is_Some (session_user auth) →
  tag db !! id = Some r →
  (0 < count_posts db id)%nat →
  DELETE auth id db = (has_posts, db) ∧
  GET auth id (DELETE auth id db).2 = (json_ok (TagBody (with_count db id r)), db).
Proof.
  intros Hs Hr Hc.
  assert (Hd : DELETE auth id db = (has_posts, db)).
  { unfold DELETE, try_catch. rewrite session_gate by done.
    unfold mbind, async_bind, bind, findUnique. rewrite Hr. simpl.
    by apply Nat.ltb_lt in Hc as ->. }
  split; [done|]. rewrite Hd. simpl. by apply GET_found.
Qed.

Lemma delete_guard_witness :
  DELETE Samples.admin "t1" Samples.rust_zig = (has_posts, Samples.rust_zig) ∧
  GET Samples.admin "t1" (DELETE Samples.admin "t1" Samples.rust_zig).2 =
    (json_ok (TagBody {| tw_id := "t1"; tw_name := "rust"; tw_slug := "rust";
                         tw_count_posts := 1 |}), Samples.rust_zig).
Proof.
  apply (delete_guard Samples.admin "t1" Samples.rust_zig {| name := "rust"; slug := "rust" |}).
  - by eexists.
  - reflexivity.
  - vm_compute. lia.
Defined.

(** C2. A request without a valid session is answered 401 and leaves the
    database as it was, whatever the operation: Retrieve and Delete when the
    session has no user, Update when it has no user identifier (and so also
    when it has no user). *)
Theorem no_session_unauthorized
    (safeParse : json → json + TagUpdateData) (unique_columns : bool)
    (auth : option Session) (request_json : option json) (id : string) (db : Database) :
  (session_user auth = None →
     GET auth id db = (unauthorized, db) ∧
     DELETE auth id db = (unauthorized, db) ∧
     PATCH safeParse unique_columns auth request_json id db = (unauthorized, db)) ∧
  (truthy_opt (session_user_id auth) = false →
     PATCH safeParse unique_columns auth request_json id db = (unauthorized, db)) ∧
  status unauthorized = 401%Z.
Proof.
  split; [|split; [|done]].
  - intros Hu. repeat split.
    + unfold GET, try_catch. by rewrite Hu.
    + unfold DELETE, try_catch. by rewrite Hu.
    + unfold PATCH, try_catch, session_user_id. by rewrite Hu.
  - intros Hid. unfold PATCH, try_catch. by rewrite Hid.
Qed.

Lemma no_session_unauthorized_witness :
  (GET None "t1" Samples.rust_zig = (unauthorized, Samples.rust_zig) ∧
   DELETE None "t1" Samples.rust_zig = (unauthorized, Samples.rust_zig) ∧
   PATCH TagUpdatePayloadSchema true None (Some (JObj [("name", JStr "go")])) "t1"
     Samples.rust_zig = (unauthorized, Samples.rust_zig)) ∧
  PATCH TagUpdatePayloadSchema true Samples.guest (Some (JObj [("name", JStr "go")])) "t1"
    Samples.rust_zig = (unauthorized, Samples.rust_zig).
Proof.
  split.
  - by apply (no_session_unauthorized TagUpdatePayloadSchema true None).
  - by apply (no_session_unauthorized TagUpdatePayloadSchema true Samples.guest).
Defined.

(** C5. Delete of an existing tag without posts, by a caller with a session:
    the answer is 200 with the acknowledgment, the row is gone, and a
    Retrieve of the same identifier afterwards answers 404. *)
Theorem delete_then_retrieve
    (auth auth' : option Session) (id : string) (db : Database) (r : TagRow) :
  is_Some (session_user auth) →
  is_Some (session_user auth') →
  tag db !! id = Some r →
  count_posts db id = 0 →
  ∃ db', DELETE auth id db = (deleted, db') ∧
         status deleted = 200%Z ∧
         tag db' !! id = None ∧
         GET auth' id db' = (not_found, db') ∧
         status not_found = 404%Z.
Proof.
  intros Hs Hs' Hr Hc.
  exists {| tag := delete id (tag db);
            postTags := filter (λ pt, pt.2 ≠ id) (postTags db) |}.
  assert (Hgone : delete id (tag db) !! id = None) by apply lookup_delete_eq.
  repeat split; try done.
  - unfold DELETE, try_catch. rewrite session_gate by done.
    unfold mbind, async_bind, bind, findUnique, delete_. rewrite Hr. simpl.
    rewrite Hc. simpl. by rewrite Hr.
  - by apply GET_missing.
Qed.

Lemma delete_then_retrieve_witness :
  ∃ db', DELETE Samples.admin "t2" Samples.rust_zig = (deleted, db') ∧
         status deleted = 200%Z ∧
         tag db' !! "t2" = None ∧
         GET Samples.guest "t2" db' = (not_found, db') ∧
         status not_found = 404%Z.
Proof.
  apply (delete_then_retrieve _ _ _ _ {| name := "zig"; slug := "zig" |}).
  - by eexists.
  - by eexists.
  - reflexivity.
  - reflexivity.
Defined.

(** C6. Retrieve of an identifier that no tag has, by a caller with a
    session: the answer is 404 "Tag not found", not 500. *)
Theorem retrieve_missing_not_found (auth : option Session) (id : string) (db : Database) :
  is_Some (session_user auth) →
  tag db !! id = None →
  GET auth id db = (not_found, db) ∧
  status (GET auth id db).1 = 404%Z ∧
  status (GET auth id db).1 ≠ 500%Z.
Proof.
  intros Hs Hr. rewrite GET_missing by done. by repeat split.
Qed.

Lemma retrieve_missing_not_found_witness :
  GET Samples.admin "t9" Samples.rust_zig = (not_found, Samples.rust_zig) ∧
  status (GET Samples.admin "t9" Samples.rust_zig).1 = 404%Z ∧
  status (GET Samples.admin "t9" Samples.rust_zig).1 ≠ 500%Z.
Proof.
  apply retrieve_missing_not_found.
  - by eexists.
  - reflexivity.
Defined.

(** *** Update *)

Lemma elem_of_spread (c : Cond) (mk : string → Cond) (o : option string) :
  c ∈ (if truthy_opt o then [mk (default "" o)] else []) ↔
  ∃ x, o = Some x ∧ x ≠ "" ∧ c = mk x.
Proof.
  destruct (truthy_opt o) eqn:Ht.
  - apply truthy_opt_true in Ht as (x & -> & Hx). simpl.
    rewrite list_elem_of_singleton. split.
    + intros ->. by exists x.
    + by intros (? & [= <-] & _ & ->).
  - rewrite elem_of_nil. split; [done|].
    intros (x & -> & Hx & _). apply truthy_opt_Some in Hx. congruence.
Qed.

Lemma elem_of_or_conditions (c : Cond) (n s : option string) :
  c ∈ or_conditions n s ↔
  (∃ x, n = Some x ∧ x ≠ "" ∧ c = NameIs x) ∨ (∃ x, s = Some x ∧ x ≠ "" ∧ c = SlugIs x).
Proof.
  unfold or_conditions. by rewrite elem_of_app, !elem_of_spread.
Qed.

Lemma existing_iff_collides (db : Database) (id : string) (data : TagUpdateData) :
  is_Some (find (where_matches id (or_conditions (data_name data) (data_slug data)))
             (map_to_list (tag db))) ↔ collides db id data.
Proof.
  rewrite find_where_is_Some. unfold collides. split.
  - intros (k & r & c & Hr & Hk & Hc & Hh). exists k, r. repeat split; try done.
    apply elem_of_or_conditions in Hc as [(x & ? & ? & ->)|(x & ? & ? & ->)];
      simpl in Hh; apply String.eqb_eq in Hh; [left|right]; by exists x.
  - intros (k & r & Hr & Hk & [(x & ? & ? & Hx)|(x & ? & ? & Hx)]).
    + exists k, r, (NameIs x). repeat split; try done.
      * apply elem_of_or_conditions. left. by exists x.
      * simpl. by apply String.eqb_eq.
    + exists k, r, (SlugIs x). repeat split; try done.
      * apply elem_of_or_conditions. right. by exists x.
      * simpl. by apply String.eqb_eq.
Qed.

(** The uniqueness query of lines 72-82, whether it is issued or not. *)
Lemma uniqueness_query (db : Database) (id : string) (n s : option string) :
  (if truthy_opt n || truthy_opt s then findFirst id (or_conditions n s) else mret None) db
  = (inr (find (where_matches id (or_conditions n s)) (map_to_list (tag db))), db).
Proof.
  destruct (truthy_opt n || truthy_opt s) eqn:Hq; [done|].
  apply orb_false_iff in Hq as [Hn Hs].
  unfold or_conditions. rewrite Hn, Hs. simpl. by rewrite find_where_nil.
Qed.

(** A validated request, past the session check and the parser. *)
Lemma PATCH_validated
    (safeParse : json → json + TagUpdateData) (unique_columns : bool)
    (auth : option Session) (j : json) (data : TagUpdateData) (id : string) (db : Database) :
  truthy_opt (session_user_id auth) = true →
  safeParse j = inr data →
  PATCH safeParse unique_columns auth (Some j) id db =
  match find (where_matches id (or_conditions (data_name data) (data_slug data)))
          (map_to_list (tag db)) with
  | Some _ => (already_exists, db)
  | None =>
      match update unique_columns id
              {| set_name := data_name data; set_slug := data_slug data |} db with
      | (inr t, db') => (json_ok (TagBody t), db')
      | (inl e, db') => (internal_error e, db')
      end
  end.
Proof.
  intros Hs Hp. unfold PATCH, try_catch. rewrite Hs. simpl.
  unfold mbind, async_bind, bind. simpl. rewrite Hp.
  rewrite uniqueness_query.
  destruct (find _ _); [done|].
  by destruct (update _ _ _ _) as [[e|t] db'].
Qed.

(** The uniqueness check where the handler makes it.  An Update whose
    validated body supplies a non-empty name or a non-empty slug that
    another tag already carries is answered 400 "A tag with this name or
    slug already exists", and the database is left as it was: the target
    and the other tag keep their stored values. *)
Theorem update_duplicate_conflict
    (safeParse : json → json + TagUpdateData) (unique_columns : bool)
    (auth : option Session) (j : json) (data : TagUpdateData)
    (id other : string) (r : TagRow) (db : Database) :
  truthy_opt (session_user_id auth) = true →
  safeParse j = inr data →
  tag db !! other = Some r →
  other ≠ id →
  (∃ n, data_name data = Some n ∧ n ≠ "" ∧ name r = n) ∨
  (∃ s, data_slug data = Some s ∧ s ≠ "" ∧ slug r = s) →
  let out := PATCH safeParse unique_columns auth (Some j) id db in
  out = (already_exists, db) ∧
  status out.1 = 400%Z ∧
  tag out.2 !! id = tag db !! id ∧
  tag out.2 !! other = Some r.
Proof.
  intros Hs Hp Hr Hne Hdup out.
  assert (Hout : out = (already_exists, db)).
  { unfold out. rewrite (PATCH_validated _ _ _ _ data) by done.
    assert (Hc : collides db id data) by (exists other, r; done).
    apply existing_iff_collides in Hc as [kr ->]. done. }
  rewrite Hout. by repeat split.
Qed.

Lemma update_duplicate_conflict_witness :
  let out := PATCH TagUpdatePayloadSchema true Samples.admin
               (Some (JObj [("name", JStr "rust")])) "t2" Samples.rust_zig in
  out = (already_exists, Samples.rust_zig) ∧
  status out.1 = 400%Z ∧
  tag out.2 !! "t2" = tag Samples.rust_zig !! "t2" ∧
  tag out.2 !! "t1" = Some {| name := "rust"; slug := "rust" |}.
Proof.
  apply (update_duplicate_conflict _ _ _ _ {| data_name := Some "rust"; data_slug := None |}).
  - reflexivity.
  - reflexivity.
  - reflexivity.
  - discriminate.
  - left. exists "rust". by repeat split.
Defined.

(** Under a schema that never yields an empty name or slug the check is
    complete: every supplied value that another tag carries is refused. *)
Lemma update_duplicate_conflict_strict_schema
    (safeParse : json → json + TagUpdateData) (unique_columns : bool)
    (auth : option Session) (j : json) (data : TagUpdateData)
    (id other : string) (r : TagRow) (db : Database) :
  (∀ j' data', safeParse j' = inr data' →
               data_name data' ≠ Some "" ∧ data_slug data' ≠ Some "") →
  truthy_opt (session_user_id auth) = true →
  safeParse j = inr data →
  tag db !! other = Some r →
  other ≠ id →
  data_name data = Some (name r) ∨ data_slug data = Some (slug r) →
  PATCH safeParse unique_columns auth (Some j) id db = (already_exists, db).
Proof.
  intros Hstrict Hs Hp Hr Hne Hdup.
  destruct (Hstrict j data Hp) as [Hn Hsl].
  rewrite (PATCH_validated _ _ _ _ data) by done.
  assert (Hc : collides db id data).
  { exists other, r. repeat split; try done.
    destruct Hdup as [Hd|Hd]; [left; exists (name r)|right; exists (slug r)];
      repeat split; try done; intros He; rewrite He in Hd; congruence. }
  by apply existing_iff_collides in Hc as [kr ->].
Qed.

(** C3. The handler misses its own check when the supplied value is the
    empty string: the uniqueness query of lines 72-82 is built on the
    truthiness of [name] and [slug], while lines 93-94 write every value
    that is not [undefined].  Tag [t1] has the name [""] and no two tags of
    the table share a name; an Update of [t2] with the body [{ name: "" }],
    valid under the schema as the spec gives it, is not answered 400.
    Without unique columns the row is rewritten, the answer is 200 and two
    tags share a name; with them the write is refused by the database and
    the answer is 500. *)
Theorem update_duplicate_empty_name :
  let body := JObj [("name", JStr "")] in
  let data := {| data_name := Some ""; data_slug := None |} in
  TagUpdatePayloadSchema body = inr data ∧
  tag Samples.unnamed_zig !! "t1" = Some {| name := ""; slug := "misc" |} ∧
  data_name data = Some (name {| name := ""; slug := "misc" |}) ∧
  PATCH TagUpdatePayloadSchema false Samples.admin (Some body) "t2" Samples.unnamed_zig =
    (json_ok (TagBody {| tw_id := "t2"; tw_name := ""; tw_slug := "zig";
                         tw_count_posts := 0 |}),
     {| tag := <["t2" := {| name := ""; slug := "zig" |}]> (tag Samples.unnamed_zig);
        postTags := ∅ |}) ∧
  PATCH TagUpdatePayloadSchema true Samples.admin (Some body) "t2" Samples.unnamed_zig =
    (json_status (ErrorBody "Internal server error") 500, Samples.unnamed_zig) ∧
  (∀ unique_columns,
     PATCH TagUpdatePayloadSchema unique_columns Samples.admin (Some body) "t2"
       Samples.unnamed_zig ≠ (already_exists, Samples.unnamed_zig)) ∧
  TagInvariant.unique_names Samples.unnamed_zig ∧
  ¬ TagInvariant.unique_names
      (PATCH TagUpdatePayloadSchema false Samples.admin (Some body) "t2"
         Samples.unnamed_zig).2.
Proof.
  repeat split; try reflexivity.
  - intros [|]; vm_compute; discriminate.
  - intros k1 k2 r1 r2 H1 H2 Hn. sample_row H1; sample_row H2; done.
  - intros Huniq.
    assert (Heq : "t1" = "t2"); [|discriminate].
    by apply (Huniq "t1" "t2" {| name := ""; slug := "misc" |}
                {| name := ""; slug := "zig" |}).
Qed.

(** An update that writes no column cannot violate a unique column and
    leaves the row, and so the database, as it was. *)
Lemma update_nothing (unique_columns : bool) (id : string) (db : Database) (r : TagRow) :
  tag db !! id = Some r →
  update unique_columns id {| set_name := None; set_slug := None |} db
  = (inr (with_count db id r), db).
Proof.
  intros Hr. unfold update. rewrite Hr. unfold written. simpl.
  rewrite find_where_nil.
  rewrite bool_decide_eq_false_2, andb_false_r by (by intros [? ?]).
  assert (Hrow : apply_update {| set_name := None; set_slug := None |} r = r)
    by by destruct r.
  rewrite Hrow, insert_id by done. by destruct db.
Qed.

(** C4. A successful Update rewrites the target row only, and in it only
    the columns the body supplies: an omitted name or slug keeps its stored
    value.  An Update of an existing tag whose body supplies neither
    answers 200 and leaves the database as it was. *)
Theorem update_is_partial
    (safeParse : json → json + TagUpdateData) (unique_columns : bool)
    (auth : option Session) (id : string) (db : Database) :
  (∀ request_json resp db',
     PATCH safeParse unique_columns auth request_json id db = (resp, db') →
     status resp = 200%Z →
     ∃ j data r r',
       request_json = Some j ∧ safeParse j = inr data ∧
       tag db !! id = Some r ∧
       tag db' = <[id := r']> (tag db) ∧ postTags db' = postTags db ∧
       name r' = default (name r) (data_name data) ∧
       slug r' = default (slug r) (data_slug data) ∧
       (data_name data = None → name r' = name r) ∧
       (data_slug data = None → slug r' = slug r) ∧
       resp = json_ok (TagBody (with_count db' id r'))) ∧
  (∀ j r,
     truthy_opt (session_user_id auth) = true →
     safeParse j = inr {| data_name := None; data_slug := None |} →
     tag db !! id = Some r →
     PATCH safeParse unique_columns auth (Some j) id db =
       (json_ok (TagBody (with_count db id r)), db) ∧
     status (json_ok (TagBody (with_count db id r))) = 200%Z).
Proof.
  split.
  - intros rq resp db' Hrun Hst.
    destruct (truthy_opt (session_user_id auth)) eqn:Hs.
    2:{ unfold PATCH, try_catch in Hrun. rewrite Hs in Hrun.
        simplify_eq/=. }
    destruct rq as [j|].
    2:{ unfold PATCH, try_catch in Hrun. rewrite Hs in Hrun.
        simplify_eq/=. }
    destruct (safeParse j) as [details|data] eqn:Hp.
    { unfold PATCH, try_catch in Hrun. rewrite Hs in Hrun. simpl in Hrun.
      unfold mbind, async_bind, bind in Hrun. simpl in Hrun.
      rewrite Hp in Hrun. simplify_eq/=. }
    rewrite (PATCH_validated _ _ _ _ data) in Hrun by done.
    destruct (find _ _) as [kr|]; [simplify_eq/=|].
    unfold update in Hrun.
    destruct (tag db !! id) as [r|] eqn:Hr; [|simplify_eq/=].
    destruct (unique_columns && _); [simplify_eq/=|].
    injection Hrun as <- <-.
    exists j, data, r,
      (apply_update {| set_name := data_name data; set_slug := data_slug data |} r).
    simpl. repeat split; try done.
    + by intros ->.
    + by intros ->.
  - intros j r Hs Hp Hr. split; [|done].
    rewrite (PATCH_validated _ _ _ _ {| data_name := None; data_slug := None |}) by done.
    unfold or_conditions. simpl. rewrite find_where_nil.
    by rewrite (update_nothing _ _ _ r).
Qed.

Lemma update_is_partial_witness :
  (∃ r', tag (PATCH TagUpdatePayloadSchema true Samples.admin
                (Some (JObj [("slug", JStr "ziglang")])) "t2" Samples.rust_zig).2
         = <["t2" := r']> (tag Samples.rust_zig) ∧
         name r' = "zig" ∧ slug r' = "ziglang") ∧
  PATCH TagUpdatePayloadSchema true Samples.admin (Some (JObj [])) "t1" Samples.rust_zig =
    (json_ok (TagBody {| tw_id := "t1"; tw_name := "rust"; tw_slug := "rust";
                         tw_count_posts := 1 |}), Samples.rust_zig).
Proof.
  destruct (update_is_partial TagUpdatePayloadSchema true Samples.admin "t2"
              Samples.rust_zig) as [Hframe _].
  destruct (update_is_partial TagUpdatePayloadSchema true Samples.admin "t1"
              Samples.rust_zig) as [_ Hempty].
  split.
  - destruct (Hframe (Some (JObj [("slug", JStr "ziglang")])) _ _ eq_refl eq_refl)
      as (j & data & r & r' & Hj & Hd & Hr & Ht & _ & Hn & Hsl & Hkeep & _).
    exists r'. injection Hj as <-. injection Hd as <-. injection Hr as <-.
    split; [exact Ht|]. split; [by apply Hkeep | exact Hsl].
  - by destruct (Hempty (JObj []) {| name := "rust"; slug := "rust" |}
                   eq_refl eq_refl eq_refl) as [-> _].
Defined.

(** C7, as the handler has it. An Update with a session user id and a
    valid body that addresses an identifier no tag has is never answered
    404 and writes nothing.  The uniqueness query runs first: when another
    tag carries a supplied non-empty name or slug the answer is 400
    "A tag with this name or slug already exists"; otherwise the update
    rejects, the catch-all takes it, and the answer is 500. *)
Theorem update_missing_tag
    (safeParse : json → json + TagUpdateData) (unique_columns : bool)
    (auth : option Session) (j : json) (data : TagUpdateData)
    (id : string) (db : Database) :
  truthy_opt (session_user_id auth) = true →
  safeParse j = inr data →
  tag db !! id = None →
  let out := PATCH safeParse unique_columns auth (Some j) id db in
  out.2 = db ∧
  status out.1 ≠ 404%Z ∧
  (collides db id data → out.1 = already_exists) ∧
  (¬ collides db id data →
     out.1 = json_status (ErrorBody "Internal server error") 500).
Proof.
  intros Hs Hp Hr out. unfold out.
  rewrite (PATCH_validated _ _ _ _ data) by done.
  pose proof (existing_iff_collides db id data) as Hc.
  destruct (find _ _) as [kr|].
  - repeat split; try done. intros Hn. destruct Hn. apply Hc. by eexists.
  - unfold update. rewrite Hr. repeat split; try done.
    intros Hcol. apply Hc in Hcol as [? ?]. done.
Qed.

Lemma update_missing_tag_witness :
  let out := PATCH TagUpdatePayloadSchema true Samples.admin
               (Some (JObj [("name", JStr "go")])) "t9" Samples.rust_zig in
  out.2 = Samples.rust_zig ∧
  status out.1 ≠ 404%Z ∧
  (collides Samples.rust_zig "t9" {| data_name := Some "go"; data_slug := None |} →
     out.1 = already_exists) ∧
  (¬ collides Samples.rust_zig "t9" {| data_name := Some "go"; data_slug := None |} →
     out.1 = json_status (ErrorBody "Internal server error") 500).
Proof.
  apply (update_missing_tag _ _ _ _ {| data_name := Some "go"; data_slug := None |});
    reflexivity.
Defined.

(** C7, as stated, fails when the body names a tag that exists: no tag has
    the identifier [t9], tag [t1] is named "rust", and an Update of [t9]
    with the body [{ name: "rust" }] is answered 400, not 500. *)
Lemma update_missing_tag_conflict :
  let body := JObj [("name", JStr "rust")] in
  truthy_opt (session_user_id Samples.admin) = true ∧
  TagUpdatePayloadSchema body = inr {| data_name := Some "rust"; data_slug := None |} ∧
  tag Samples.rust_zig !! "t9" = None ∧
  (∀ unique_columns,
     PATCH TagUpdatePayloadSchema unique_columns Samples.admin (Some body) "t9"
       Samples.rust_zig = (already_exists, Samples.rust_zig)) ∧
  status already_exists = 400%Z ∧
  status already_exists ≠ 500%Z.
Proof.
  repeat split; try reflexivity; done.
Qed.

(** C8. A session that carries a user passes the check of Retrieve and of
    Delete whether the user has an identifier or not.  Update asks for the
    identifier as well: a user without one is answered 401 and nothing is
    written, a user with a non-empty one passes. *)
Theorem session_checks_differ
    (safeParse : json → json + TagUpdateData) (unique_columns : bool)
    (auth : option Session) (u : User)
    (request_json : option json) (id : string) (db : Database) :
  session_user auth = Some u →
  status (GET auth id db).1 ≠ 401%Z ∧
  status (DELETE auth id db).1 ≠ 401%Z ∧
  (user_id u = None →
     PATCH safeParse unique_columns auth request_json id db = (unauthorized, db)) ∧
  (truthy_opt (user_id u) = true →
     status (PATCH safeParse unique_columns auth request_json id db).1 ≠ 401%Z).
Proof.
  intros Hu.
  assert (Hs : is_Some (session_user auth)) by by eexists.
  assert (Hid : session_user_id auth = user_id u)
    by (unfold session_user_id; by rewrite Hu).
  repeat split.
  - destruct (tag db !! id) as [r|] eqn:Hr.
    + by rewrite (GET_found _ _ _ r).
    + by rewrite GET_missing.
  - unfold DELETE, try_catch. rewrite session_gate by done.
    unfold mbind, async_bind, bind, findUnique, delete_.
    destruct (tag db !! id) as [r|] eqn:Hr; simpl; [|done].
    destruct (0 <? _)%nat; simpl; [done|]. by rewrite Hr.
  - intros Hnone. unfold PATCH, try_catch. by rewrite Hid, Hnone.
  - intros Hsome. rewrite <- Hid in Hsome.
    destruct request_json as [j|].
    2:{ unfold PATCH, try_catch. by rewrite Hsome. }
    destruct (safeParse j) as [details|data] eqn:Hp.
    { unfold PATCH, try_catch. rewrite Hsome. simpl.
      unfold mbind, async_bind, bind. simpl. by rewrite Hp. }
    rewrite (PATCH_validated _ _ _ _ data) by done.
    destruct (find _ _); [done|].
    by destruct (update _ _ _ _) as [[e|t] db'].
Qed.

Lemma session_checks_differ_witness :
  status (GET Samples.guest "t1" Samples.rust_zig).1 ≠ 401%Z ∧
  status (DELETE Samples.guest "t1" Samples.rust_zig).1 ≠ 401%Z ∧
  (user_id Samples.anonymous_user = None →
     PATCH TagUpdatePayloadSchema true Samples.guest (Some (JObj [])) "t1"
       Samples.rust_zig = (unauthorized, Samples.rust_zig)) ∧
  (truthy_opt (user_id Samples.anonymous_user) = true →
     status (PATCH TagUpdatePayloadSchema true Samples.guest (Some (JObj [])) "t1"
               Samples.rust_zig).1 ≠ 401%Z).
Proof.
  apply (session_checks_differ _ _ Samples.guest Samples.anonymous_user).
  reflexivity.
Defined.

End TagRouteSpec.

(** ** The post card *)

Module BlogSpec.
Import Js Blog JsFacts.

Section PostCard.

Variable getAuthorInitial : string → string.
Variable formatPostDate : option Z → Z → string.

Abbreviation PostCard := (PostCard getAuthorInitial formatPostDate).

Lemma badges_of_categories (cs : list Category) :
  flat_map (elements_of "Badge") (category_badge <$> cs) = category_badge <$> cs.
Proof.
  induction cs as [|c cs IH]; [done|].
  rewrite fmap_cons. cbn [flat_map]. by rewrite IH.
Qed.

Lemma badges_of_tags (ts : list Tag) :
  flat_map (elements_of "Badge") (tag_badge <$> ts) = tag_badge <$> ts.
Proof.
  induction ts as [|t ts IH]; [done|].
  rewrite fmap_cons. cbn [flat_map]. by rewrite IH.
Qed.

Lemma badges_of_excerpt (e : option string) :
  elements_of "Badge" (excerpt_block e) = [].
Proof. destruct e as [s|]; simpl; [|done]. by destruct (truthy s). Qed.

(** C9. The badges of a post card are, in document order, one per
    category for the first two categories of the post and then one per
    tag for its first three tags, each in the order supplied: never more
    than two and three, however many the post has. *)
Theorem post_card_badges (post : Post) :
  elements_of "Badge" (PostCard post) =
    ((category_badge <$> take 2 (post_categories post)) ++
     (tag_badge <$> take 3 (post_tags post)))%list ∧
  (List.length (category_badge <$> take 2 (post_categories post)) ≤ 2)%nat ∧
  (List.length (tag_badge <$> take 3 (post_tags post)) ≤ 3)%nat ∧
  (List.length (elements_of "Badge" (PostCard post)) ≤ 5)%nat.
Proof.
  assert (Hb : elements_of "Badge" (PostCard post) =
               ((category_badge <$> take 2 (post_categories post)) ++
                (tag_badge <$> take 3 (post_tags post)))%list).
  { unfold PostCard. cbn [elements_of flat_map String.eqb Ascii.eqb Bool.eqb app].
    rewrite badges_of_excerpt, badges_of_categories, badges_of_tags.
    by rewrite !app_nil_r. }
  assert (Hc : (List.length (category_badge <$> take 2 (post_categories post)) ≤ 2)%nat)
    by (rewrite length_fmap, length_take; lia).
  assert (Ht : (List.length (tag_badge <$> take 3 (post_tags post)) ≤ 3)%nat)
    by (rewrite length_fmap, length_take; lia).
  repeat split; try done.
  rewrite Hb, length_app. lia.
Qed.

(** C10. A post without an excerpt gets no description block in its
    card, not an empty one; a post with a non-empty excerpt gets exactly
    one, holding the text of the excerpt. *)
Theorem post_card_excerpt (post : Post) :
  (post_excerpt post = None →
     elements_of "CardDescription" (PostCard post) = []) ∧
  (∀ s, post_excerpt post = Some s → s ≠ "" →
     elements_of "CardDescription" (PostCard post) =
       [Element "CardDescription" None [("className", "mt-2 line-clamp-3")] [Text s]]).
Proof.
  assert (Hc : ∀ cs, flat_map (elements_of "CardDescription") (category_badge <$> cs) = []).
  { induction cs as [|c cs IH]; [done|].
    rewrite fmap_cons. cbn [flat_map]. by rewrite IH. }
  assert (Ht : ∀ ts, flat_map (elements_of "CardDescription") (tag_badge <$> ts) = []).
  { induction ts as [|t ts IH]; [done|].
    rewrite fmap_cons. cbn [flat_map]. by rewrite IH. }
  split.
  - intros He. unfold PostCard. rewrite He.
    cbn [elements_of flat_map String.eqb Ascii.eqb Bool.eqb app excerpt_block].
    by rewrite Hc, Ht.
  - intros s He Hs. unfold PostCard. rewrite He.
    unfold excerpt_block. apply truthy_true in Hs as ->.
    cbn [elements_of flat_map String.eqb Ascii.eqb Bool.eqb app].
    by rewrite Hc, Ht.
Qed.

End PostCard.

Lemma post_card_excerpt_witness :
  elements_of "CardDescription"
    (PostCard (λ _, "R") (λ _ _, "Nov 14, 2023") (Samples.long_post None)) = [] ∧
  elements_of "CardDescription"
    (PostCard (λ _, "R") (λ _ _, "Nov 14, 2023") (Samples.long_post (Some "First post"))) =
    [Element "CardDescription" None [("className", "mt-2 line-clamp-3")]
       [Text "First post"]].
Proof.
  split.
  - by apply (post_card_excerpt (λ _, "R") (λ _ _, "Nov 14, 2023") (Samples.long_post None)).
  - by apply (post_card_excerpt (λ _, "R") (λ _ _, "Nov 14, 2023")
                (Samples.long_post (Some "First post"))).
Defined.

End BlogSpec.

(** ** Further properties of the route handlers *)

Module TagRouteMore.
Import Js Prisma TagRoute TagInvariant JsFacts PrismaFacts TagRouteSpec.

Lemma find_where_None (id : string) (conds : list Cond) (m : gmap string TagRow) :
  find (where_matches id conds) (map_to_list m) = None ↔
  ∀ k r c, m !! k = Some r → k ≠ id → c ∈ conds → cond_holds r c = false.
Proof.
  split.
  - intros Hf k r c Hr Hk Hc. destruct (cond_holds r c) eqn:Hh; [|done].
    assert (Hs : is_Some (find (where_matches id conds) (map_to_list m))).
    { apply find_where_is_Some. by exists k, r, c. }
    rewrite Hf in Hs. by destruct Hs.
  - intros Hall. destruct (find _ _) as [kr|] eqn:Hf; [|done].
    assert (Hs : is_Some (find (where_matches id conds) (map_to_list m))) by by eexists.
    apply find_where_is_Some in Hs as (k & r & c & Hr & Hk & Hc & Hh).
    by rewrite (Hall k r c) in Hh.
Qed.

(** Rewriting the row of [id] does not change what the query that excludes
    [id] finds. *)
Lemma find_where_insert (id : string) (conds : list Cond) (m : gmap string TagRow)
    (r' : TagRow) :
  find (where_matches id conds) (map_to_list (<[id := r']> m)) = None ↔
  find (where_matches id conds) (map_to_list m) = None.
Proof.
  rewrite !find_where_None.
  split; intros Hall k r c Hr Hk; apply (Hall k r c); try done.
  - by rewrite lookup_insert_ne.
  - by rewrite lookup_insert_ne in Hr.
Qed.

(** Every run of [PATCH] either leaves the database alone and answers with
    an error, or rewrites the row of [id] and answers 200. *)
Lemma PATCH_inv
    (safeParse : json → json + TagUpdateData) (unique_columns : bool)
    (auth : option Session) (request_json : option json) (id : string)
    (db db' : Database) (resp : NextResponse) :
  PATCH safeParse unique_columns auth request_json id db = (resp, db') →
  (db' = db ∧ (status resp = 400 ∨ status resp = 401 ∨ status resp = 500)%Z) ∨
  (∃ j data r,
     request_json = Some j ∧ safeParse j = inr data ∧
     truthy_opt (session_user_id auth) = true ∧
     tag db !! id = Some r ∧
     find (where_matches id (or_conditions (data_name data) (data_slug data)))
       (map_to_list (tag db)) = None ∧
     (unique_columns = true →
      find (where_matches id (written {| set_name := data_name data;
                                         set_slug := data_slug data |}))
        (map_to_list (tag db)) = None) ∧
     db' = {| tag := <[id := apply_update {| set_name := data_name data;
                                             set_slug := data_slug data |} r]> (tag db);
              postTags := postTags db |} ∧
     resp = json_ok (TagBody (with_count db' id
                                (apply_update {| set_name := data_name data;
                                                 set_slug := data_slug data |} r)))).
Proof.
  intros Hrun.
  destruct (truthy_opt (session_user_id auth)) eqn:Hs.
  2:{ unfold PATCH, try_catch in Hrun. rewrite Hs in Hrun.
      simplify_eq/=. left. auto. }
  destruct request_json as [j|].
  2:{ unfold PATCH, try_catch in Hrun. rewrite Hs in Hrun.
      simplify_eq/=. left. auto. }
  destruct (safeParse j) as [details|data] eqn:Hp.
  { unfold PATCH, try_catch in Hrun. rewrite Hs in Hrun. simpl in Hrun.
    unfold mbind, async_bind, bind in Hrun. simpl in Hrun.
    rewrite Hp in Hrun. simplify_eq/=. left. auto. }
  rewrite (PATCH_validated _ _ _ _ data) in Hrun by done.
  destruct (find _ _) as [kr|] eqn:Hq; [simplify_eq/=; left; auto|].
  unfold update in Hrun.
  destruct (tag db !! id) as [r|] eqn:Hr; [|simplify_eq/=; left; auto].
  destruct (unique_columns && _) eqn:Hu; [simplify_eq/=; left; auto|].
  injection Hrun as <- <-. right.
  exists j, data, r. repeat split; try done.
  intros ->. simpl in Hu. apply bool_decide_eq_false in Hu.
  by apply eq_None_not_Some.
Qed.

(** X1. [GET] never writes, and what it answers is sound: a 401 is given
    exactly when the session has no user, a 404 only when no tag has the
    identifier, and a 200 only with the stored row of the identifier and
    its post count. *)
Theorem GET_read_only (auth : option Session) (id : string) (db : Database) :
  (GET auth id db).2 = db ∧
  (status (GET auth id db).1 = 401%Z ↔ session_user auth = None) ∧
  (status (GET auth id db).1 = 404%Z → tag db !! id = None) ∧
  (status (GET auth id db).1 = 200%Z →
     ∃ r, tag db !! id = Some r ∧
          body (GET auth id db).1 = TagBody (with_count db id r)).
Proof.
  destruct (session_user auth) as [u|] eqn:Hu.
  - assert (Hs : is_Some (session_user auth)) by by eexists.
    destruct (tag db !! id) as [r|] eqn:Hr.
    + rewrite (GET_found _ _ _ r) by done. simpl.
      repeat split; try done. intros _. by exists r.
    + rewrite GET_missing by done. simpl. by repeat split.
  - unfold GET, try_catch. rewrite Hu. simpl. by repeat split.
Qed.

Lemma GET_read_only_witness :
  (GET Samples.admin "t1" Samples.rust_zig).2 = Samples.rust_zig ∧
  ∃ r, tag Samples.rust_zig !! "t1" = Some r ∧
       body (GET Samples.admin "t1" Samples.rust_zig).1 =
         TagBody (with_count Samples.rust_zig "t1" r).
Proof.
  destruct (GET_read_only Samples.admin "t1" Samples.rust_zig) as (Hdb & _ & _ & Hok).
  split; [exact Hdb|]. apply Hok. reflexivity.
Defined.

(** X2. Retrieve of an existing tag, by a caller with a session: the answer
    is 200 and carries the identifier, the stored name and slug, and as post
    count the number of relation rows that mention the tag. *)
Theorem GET_returns_tag (auth : option Session) (id : string) (db : Database) (r : TagRow) :
  is_Some (session_user auth) →
  tag db !! id = Some r →
  GET auth id db =
    ({| body := TagBody {| tw_id := id; tw_name := name r; tw_slug := slug r;
                           tw_count_posts :=
                             size (filter (λ pt, pt.2 = id) (postTags db)) |};
        status := 200 |}, db).
Proof. intros Hs Hr. by rewrite (GET_found _ _ _ r). Qed.

Lemma GET_returns_tag_witness :
  GET Samples.guest "t1" Samples.rust_zig =
    ({| body := TagBody {| tw_id := "t1"; tw_name := "rust"; tw_slug := "rust";
                           tw_count_posts := 1 |};
        status := 200 |}, Samples.rust_zig).
Proof.
  apply (GET_returns_tag Samples.guest "t1" Samples.rust_zig {| name := "rust"; slug := "rust" |}).
  - by eexists.
  - reflexivity.
Defined.

(** *** Delete *)

(** A tag without posts has no row in the relation table to lose. *)
Lemma no_posts_no_rows (db : Database) (id : string) :
  count_posts db id = 0 →
  filter (λ pt, pt.2 ≠ id) (postTags db) = postTags db.
Proof.
  intros Hc. apply size_empty_inv in Hc.
  apply set_eq. intros pt. rewrite elem_of_filter. split; [by intros [_ ?]|].
  intros Hin. split; [|done]. intros Heq.
  apply (not_elem_of_empty (C := gset (string * string)) pt).
  rewrite <- Hc. by apply elem_of_filter.
Qed.

(** Every run of [DELETE] either leaves the database alone and answers with
    an error, or removes the row of a tag without posts and answers 200. *)
Lemma DELETE_inv (auth : option Session) (id : string) (db db' : Database)
    (resp : NextResponse) :
  DELETE auth id db = (resp, db') →
  (db' = db ∧ (status resp = 400 ∨ status resp = 401 ∨ status resp = 404)%Z) ∨
  (∃ r, is_Some (session_user auth) ∧ tag db !! id = Some r ∧
        count_posts db id = 0 ∧
        db' = {| tag := delete id (tag db); postTags := postTags db |} ∧
        resp = deleted).
Proof.
  unfold DELETE, try_catch.
  destruct (session_user auth) as [u|] eqn:Hu; intros Hrun;
    [|simplify_eq/=; left; auto].
  assert (Hs : is_Some (Some u)) by by eexists.
  simpl in Hrun.
  unfold mbind, async_bind, bind, findUnique, delete_ in Hrun.
  destruct (tag db !! id) as [r|] eqn:Hr; simpl in Hrun; [|simplify_eq/=; left; auto].
  destruct (count_posts db id) as [|n] eqn:Hc; simpl in Hrun.
  - rewrite Hr in Hrun. injection Hrun as <- <-. right. exists r.
    by rewrite no_posts_no_rows.
  - simplify_eq/=. left. auto.
Qed.

(** X3. Delete of an identifier that no tag has, by a caller with a
    session: the answer is 404 "Tag not found" and nothing is written. *)
Theorem DELETE_missing (auth : option Session) (id : string) (db : Database) :
  is_Some (session_user auth) →
  tag db !! id = None →
  DELETE auth id db = (not_found, db).
Proof.
  intros Hs Hr. unfold DELETE, try_catch. rewrite session_gate by done.
  unfold mbind, async_bind, bind, findUnique. by rewrite Hr.
Qed.

Lemma DELETE_missing_witness :
  DELETE Samples.admin "t9" Samples.rust_zig = (not_found, Samples.rust_zig).
Proof.
  apply DELETE_missing.
  - by eexists.
  - reflexivity.
Defined.

(** X4. A Delete that answers 200 removes the row of the addressed tag and
    nothing else: every other tag keeps its row and its post count, and the
    relation table is unchanged. *)
Theorem DELETE_frame (auth : option Session) (id : string) (db db' : Database)
    (resp : NextResponse) :
  DELETE auth id db = (resp, db') →
  status resp = 200%Z →
  tag db' !! id = None ∧
  postTags db' = postTags db ∧
  ∀ k, k ≠ id → tag db' !! k = tag db !! k ∧ count_posts db' k = count_posts db k.
Proof.
  intros Hrun Hst.
  apply DELETE_inv in Hrun as [[_ Herr]|(r & _ & _ & _ & -> & _)].
  - rewrite Hst in Herr. by destruct Herr as [|[|]].
  - simpl. split; [apply lookup_delete_eq|]. split; [done|].
    intros k Hk. split; [by apply lookup_delete_ne|done].
Qed.

Lemma DELETE_frame_witness :
  tag (DELETE Samples.admin "t2" Samples.rust_zig).2 !! "t2" = None ∧
  postTags (DELETE Samples.admin "t2" Samples.rust_zig).2 = postTags Samples.rust_zig ∧
  ∀ k, k ≠ "t2" →
       tag (DELETE Samples.admin "t2" Samples.rust_zig).2 !! k = tag Samples.rust_zig !! k ∧
       count_posts (DELETE Samples.admin "t2" Samples.rust_zig).2 k =
         count_posts Samples.rust_zig k.
Proof.
  by apply (DELETE_frame Samples.admin "t2" Samples.rust_zig _ deleted).
Defined.

(** X5. What each answer of [DELETE] means: the database changes only
    when the answer is 200; a 401 is given exactly when the session has no
    user, a 404 only when no tag has the identifier, a 400 only for an
    existing tag that has posts, and a 200 only for an existing tag
    without posts, whose row is then gone. *)
Theorem DELETE_outcomes (auth : option Session) (id : string) (db : Database) :
  let out := DELETE auth id db in
  (status out.1 ≠ 200%Z → out.2 = db) ∧
  (status out.1 = 401%Z ↔ session_user auth = None) ∧
  (status out.1 = 404%Z → tag db !! id = None) ∧
  (status out.1 = 400%Z →
     ∃ r, tag db !! id = Some r ∧ (0 < count_posts db id)%nat) ∧
  (status out.1 = 200%Z →
     ∃ r, tag db !! id = Some r ∧ count_posts db id = 0 ∧ tag out.2 !! id = None).
Proof.
  intros out. unfold out, DELETE, try_catch.
  destruct (session_user auth) as [u|] eqn:Hu; simpl; [|by repeat split].
  unfold mbind, async_bind, bind, findUnique, delete_.
  destruct (tag db !! id) as [r|] eqn:Hr; simpl; [|by repeat split].
  destruct (count_posts db id) as [|n] eqn:Hc; simpl.
  - rewrite Hr. simpl. repeat split; try done.
    intros _. exists r. repeat split; try done. apply lookup_delete_eq.
  - repeat split; try done. intros _. exists r. split; [done|lia].
Qed.

Lemma DELETE_outcomes_witness :
  (DELETE Samples.admin "t1" Samples.rust_zig).2 = Samples.rust_zig ∧
  ∃ r, tag Samples.rust_zig !! "t1" = Some r ∧
       (0 < count_posts Samples.rust_zig "t1")%nat.
Proof.
  destruct (DELETE_outcomes Samples.admin "t1" Samples.rust_zig)
    as (Hkeep & _ & _ & Hposts & _).
  split.
  - apply Hkeep. vm_compute. intros [=].
  - apply Hposts. reflexivity.
Defined.

(** X6. Delete is not repeatable: after a Delete that answered 200, a
    second Delete of the same identifier, by any caller with a session,
    answers 404 and leaves the database as the first one left it. *)
Theorem DELETE_twice (auth auth' : option Session) (id : string) (db db' : Database)
    (resp : NextResponse) :
  DELETE auth id db = (resp, db') →
  status resp = 200%Z →
  is_Some (session_user auth') →
  DELETE auth' id db' = (not_found, db').
Proof.
  intros Hrun Hst Hs.
  apply DELETE_inv in Hrun as [[_ Herr]|(r & _ & _ & _ & -> & _)].
  { rewrite Hst in Herr. by destruct Herr as [|[|]]. }
  unfold DELETE, try_catch. rewrite session_gate by done.
  unfold mbind, async_bind, bind, findUnique. simpl.
  by rewrite lookup_delete_eq.
Qed.

Lemma DELETE_twice_witness :
  DELETE Samples.guest "t2" (DELETE Samples.admin "t2" Samples.rust_zig).2 =
    (not_found, (DELETE Samples.admin "t2" Samples.rust_zig).2).
Proof.
  apply (DELETE_twice Samples.admin Samples.guest "t2" Samples.rust_zig _ deleted).
  - reflexivity.
  - reflexivity.
  - by eexists.
Defined.

(** X7. [DELETE] keeps the relation table sound: when every row of it
    mentions an existing tag before the request, so it does after it.  A tag
    goes only when no row mentions it. *)
Theorem DELETE_referential (auth : option Session) (id : string) (db : Database) :
  referential db →
  referential (DELETE auth id db).2.
Proof.
  intros Href. destruct (DELETE auth id db) as [resp db'] eqn:Hrun. simpl.
  apply DELETE_inv in Hrun as [[-> _]|(r & _ & _ & Hc & -> & _)]; [done|].
  intros p t Hin. simpl in *.
  destruct (decide (t = id)) as [->|Hne].
  - exfalso. apply size_empty_inv in Hc.
    apply (not_elem_of_empty (C := gset (string * string)) (p, id)).
    rewrite <- Hc. by apply elem_of_filter.
  - rewrite lookup_delete_ne by done. by apply (Href p t).
Qed.

Lemma DELETE_referential_witness :
  referential (DELETE Samples.admin "t2" Samples.rust_zig).2.
Proof.
  apply DELETE_referential.
  intros p t Hin. unfold Samples.rust_zig in Hin. simpl in Hin.
  apply elem_of_singleton in Hin. injection Hin as -> ->.
  by eexists.
Defined.

(** *** Update *)

(** X8. An Update whose body the schema refuses is answered 400
    "Invalid input" with the parser's description of the errors, and nothing
    is written, whether the tag exists or not. *)
Theorem PATCH_invalid_input
    (safeParse : json → json + TagUpdateData) (unique_columns : bool)
    (auth : option Session) (j details : json) (id : string) (db : Database) :
  truthy_opt (session_user_id auth) = true →
  safeParse j = inl details →
  PATCH safeParse unique_columns auth (Some j) id db =
    (json_status (InvalidInputBody "Invalid input" details) 400, db).
Proof.
  intros Hs Hp. unfold PATCH, try_catch. rewrite Hs. simpl.
  unfold mbind, async_bind, bind. simpl. by rewrite Hp.
Qed.

Lemma PATCH_invalid_input_witness :
  PATCH TagUpdatePayloadSchema true Samples.admin (Some (JObj [("name", JNum 7)])) "t1"
    Samples.rust_zig =
    (json_status (InvalidInputBody "Invalid input"
                    (JObj [("_errors", JArr [JStr "Expected string"])])) 400,
     Samples.rust_zig).
Proof. apply PATCH_invalid_input; reflexivity. Defined.

(** X9. An Update whose body is not JSON is answered 500: the rejection of
    [request.json()] is taken by the catch-all, before the schema is
    consulted, and nothing is written. *)
Theorem PATCH_not_json
    (safeParse : json → json + TagUpdateData) (unique_columns : bool)
    (auth : option Session) (id : string) (db : Database) :
  truthy_opt (session_user_id auth) = true →
  PATCH safeParse unique_columns auth None id db =
    (json_status (ErrorBody "Internal server error") 500, db).
Proof. intros Hs. unfold PATCH, try_catch. by rewrite Hs. Qed.

Lemma PATCH_not_json_witness :
  PATCH TagUpdatePayloadSchema true Samples.admin None "t1" Samples.rust_zig =
    (json_status (ErrorBody "Internal server error") 500, Samples.rust_zig).
Proof. apply PATCH_not_json. reflexivity. Defined.

(** X10. [PATCH] answers one of 200, 400, 401 and 500, never 404, and it
    writes only when it answers 200. *)
Theorem PATCH_outcomes
    (safeParse : json → json + TagUpdateData) (unique_columns : bool)
    (auth : option Session) (request_json : option json) (id : string) (db : Database) :
  let out := PATCH safeParse unique_columns auth request_json id db in
  (status out.1 = 200 ∨ status out.1 = 400 ∨ status out.1 = 401 ∨ status out.1 = 500)%Z ∧
  status out.1 ≠ 404%Z ∧
  (status out.1 ≠ 200%Z → out.2 = db).
Proof.
  intros out. unfold out.
  destruct (PATCH _ _ _ _ _ _) as [resp db'] eqn:Hrun. simpl.
  apply PATCH_inv in Hrun
    as [[-> Herr]|(j & data & r & _ & _ & _ & _ & _ & _ & _ & ->)].
  - split; [tauto|]. split; [|done]. intros H404. rewrite H404 in Herr.
    by destruct Herr as [|[|]].
  - split; [by left|]. by split.
Qed.

Lemma PATCH_outcomes_witness :
  let out := PATCH TagUpdatePayloadSchema true Samples.admin
               (Some (JObj [("name", JStr "rust")])) "t2" Samples.rust_zig in
  status out.1 = 400%Z ∧ out.2 = Samples.rust_zig.
Proof.
  split; [reflexivity|].
  destruct (PATCH_outcomes TagUpdatePayloadSchema true Samples.admin
              (Some (JObj [("name", JStr "rust")])) "t2" Samples.rust_zig)
    as (_ & _ & Hkeep).
  apply Hkeep. vm_compute. intros [=].
Defined.

(** X11. [PATCH] never creates or deletes a tag, never touches the row of a
    tag other than the addressed one, and never touches the relation table:
    the post count of every tag is what it was. *)
Theorem PATCH_frame
    (safeParse : json → json + TagUpdateData) (unique_columns : bool)
    (auth : option Session) (request_json : option json) (id : string) (db : Database) :
  let out := PATCH safeParse unique_columns auth request_json id db in
  dom (tag out.2) = dom (tag db) ∧
  postTags out.2 = postTags db ∧
  (∀ k, k ≠ id → tag out.2 !! k = tag db !! k) ∧
  (∀ k, count_posts out.2 k = count_posts db k).
Proof.
  intros out. unfold out.
  destruct (PATCH _ _ _ _ _ _) as [resp db'] eqn:Hrun. simpl.
  apply PATCH_inv in Hrun
    as [[-> _]|(j & data & r & _ & _ & _ & Hr & _ & _ & -> & _)]; [done|].
  simpl. repeat split; try done.
  - apply dom_insert_lookup_L. by eexists.
  - intros k Hk. by rewrite lookup_insert_ne.
Qed.

(** X12. Past the session check and the schema, [PATCH] answers 400
    "A tag with this name or slug already exists" exactly when some other
    tag carries a name or slug that the body supplies as a non-empty string.
    Names are compared with names and slugs with slugs. *)
Theorem PATCH_conflict_iff
    (safeParse : json → json + TagUpdateData) (unique_columns : bool)
    (auth : option Session) (j : json) (data : TagUpdateData)
    (id : string) (db : Database) :
  truthy_opt (session_user_id auth) = true →
  safeParse j = inr data →
  (PATCH safeParse unique_columns auth (Some j) id db).1 = already_exists ↔
  collides db id data.
Proof.
  intros Hs Hp. rewrite (PATCH_validated _ _ _ _ data) by done.
  rewrite <- existing_iff_collides.
  destruct (find _ _) as [kr|]; simpl.
  - split; [by eexists|done].
  - split; [|by intros [? ?]].
    by destruct (update _ _ _ _) as [[e|t] db'].
Qed.

Lemma PATCH_conflict_iff_witness :
  (PATCH TagUpdatePayloadSchema true Samples.admin
     (Some (JObj [("name", JStr "zig"); ("slug", JStr "rust")])) "t1" Samples.rust_zig).1
    = already_exists ↔
  collides Samples.rust_zig "t1" {| data_name := Some "zig"; data_slug := Some "rust" |}.
Proof. apply PATCH_conflict_iff; reflexivity. Defined.

(** X13. For a session whose user has the empty string as identifier the
    check of [PATCH] fails like for none: the answer is 401 and nothing is
    written. *)
Theorem PATCH_empty_user_id
    (safeParse : json → json + TagUpdateData) (unique_columns : bool)
    (auth : option Session) (u : User)
    (request_json : option json) (id : string) (db : Database) :
  session_user auth = Some u →
  user_id u = Some "" →
  PATCH safeParse unique_columns auth request_json id db = (unauthorized, db).
Proof.
  intros Hu Hid. unfold PATCH, try_catch, session_user_id. by rewrite Hu; simpl; rewrite Hid.
Qed.

Lemma PATCH_empty_user_id_witness :
  PATCH TagUpdatePayloadSchema true
    (Some {| user := Some {| user_id := Some ""; user_name := None; user_email := None |} |})
    (Some (JObj [])) "t1" Samples.rust_zig = (unauthorized, Samples.rust_zig).
Proof.
  by apply (PATCH_empty_user_id _ _ _
              {| user_id := Some ""; user_name := None; user_email := None |}).
Defined.

(** For values that are absent or non-empty, the columns an update writes
    are the columns the uniqueness query asks about. *)
Lemma written_or_conditions (data : TagUpdateData) :
  data_name data ≠ Some "" →
  data_slug data ≠ Some "" →
  written {| set_name := data_name data; set_slug := data_slug data |} =
  or_conditions (data_name data) (data_slug data).
Proof.
  intros Hn Hs. unfold written, or_conditions. simpl.
  destruct (data_name data) as [n|], (data_slug data) as [sl|]; simpl;
    repeat match goal with
           | H : Some ?x ≠ Some "" |- context [truthy ?x] =>
               rewrite (proj2 (truthy_true x)) by congruence
           end; done.
Qed.

(** In a table with unique names and slugs, no other row carries the name
    or the slug of the row of [id]. *)
Lemma own_values_free (db : Database) (id : string) (r : TagRow) (conds : list Cond) :
  unique_names db → unique_slugs db →
  tag db !! id = Some r →
  (∀ c, c ∈ conds → c = NameIs (name r) ∨ c = SlugIs (slug r)) →
  find (where_matches id conds) (map_to_list (tag db)) = None.
Proof.
  intros Hun Hus Hr Hconds. apply find_where_None. intros k r0 c Hr0 Hk Hc.
  destruct (cond_holds r0 c) eqn:Hh; [|done]. exfalso. apply Hk.
  destruct (Hconds c Hc) as [-> | ->]; simpl in Hh; apply String.eqb_eq in Hh.
  - by apply (Hun k id r0 r).
  - by apply (Hus k id r0 r).
Qed.

(** X14. A tag is not in conflict with itself: in a table with unique names
    and slugs, an Update of an existing tag that supplies the tag's own
    stored name and slug answers 200 with the tag and leaves the database as
    it was. *)
Theorem PATCH_own_values
    (safeParse : json → json + TagUpdateData) (unique_columns : bool)
    (auth : option Session) (j : json) (id : string) (r : TagRow) (db : Database) :
  truthy_opt (session_user_id auth) = true →
  safeParse j = inr {| data_name := Some (name r); data_slug := Some (slug r) |} →
  tag db !! id = Some r →
  unique_names db → unique_slugs db →
  PATCH safeParse unique_columns auth (Some j) id db =
    (json_ok (TagBody (with_count db id r)), db).
Proof.
  intros Hs Hp Hr Hun Hus.
  rewrite (PATCH_validated _ _ _ _ {| data_name := Some (name r);
                                      data_slug := Some (slug r) |}) by done.
  assert (Hq : find (where_matches id (or_conditions (Some (name r)) (Some (slug r))))
                 (map_to_list (tag db)) = None).
  { apply (own_values_free db id r); try done. intros c Hc.
    apply elem_of_or_conditions in Hc
      as [(x & [= <-] & _ & ->)|(x & [= <-] & _ & ->)]; auto. }
  assert (Hw : find (where_matches id (written {| set_name := Some (name r);
                                                  set_slug := Some (slug r) |}))
                 (map_to_list (tag db)) = None).
  { apply (own_values_free db id r); try done. intros c Hc.
    unfold written in Hc. simpl in Hc.
    apply elem_of_cons in Hc as [->|Hc]; [by left|].
    apply list_elem_of_singleton in Hc as ->. by right. }
  simpl. rewrite Hq. unfold update. rewrite Hr, Hw.
  rewrite bool_decide_eq_false_2, andb_false_r by (by intros [? ?]).
  assert (Hrow : apply_update {| set_name := Some (name r); set_slug := Some (slug r) |} r = r)
    by by destruct r.
  rewrite Hrow, insert_id by done. by destruct db.
Qed.

Lemma PATCH_own_values_witness :
  PATCH TagUpdatePayloadSchema true Samples.admin
    (Some (JObj [("name", JStr "rust"); ("slug", JStr "rust")])) "t1" Samples.rust_zig =
    (json_ok (TagBody {| tw_id := "t1"; tw_name := "rust"; tw_slug := "rust";
                         tw_count_posts := 1 |}), Samples.rust_zig).
Proof.
  apply (PATCH_own_values _ _ _ _ "t1" {| name := "rust"; slug := "rust" |});
    try reflexivity.
  - intros k1 k2 r1 r2 H1 H2 Hn. sample_row H1; sample_row H2; done.
  - intros k1 k2 r1 r2 H1 H2 Hn. sample_row H1; sample_row H2; done.
Defined.

(** After a successful update no other row carries a value the update
    wrote, provided the written values are non-empty or the columns are
    unique in the database. *)
Lemma update_keeps_unique
    (field : TagRow → string) (mk : string → Cond) (supplied : option string)
    (conds : list Cond) (id : string) (r : TagRow) (m : gmap string TagRow) (r' : TagRow) :
  (∀ r0 v, cond_holds r0 (mk v) = String.eqb (field r0) v) →
  (∀ v, supplied = Some v → mk v ∈ conds) →
  find (where_matches id conds) (map_to_list m) = None →
  field r' = default (field r) supplied →
  m !! id = Some r →
  (∀ k1 k2 r1 r2, m !! k1 = Some r1 → m !! k2 = Some r2 → field r1 = field r2 → k1 = k2) →
  ∀ k1 k2 r1 r2,
    <[id := r']> m !! k1 = Some r1 → <[id := r']> m !! k2 = Some r2 →
    field r1 = field r2 → k1 = k2.
Proof.
  intros Hmk Hin Hfind Hfield Hr Huniq.
  assert (Hother : ∀ k r0, k ≠ id → m !! k = Some r0 → field r0 ≠ field r').
  { intros k r0 Hk Hr0 Heq. rewrite Hfield in Heq.
    destruct supplied as [v|]; simpl in Heq.
    - assert (Hh : cond_holds r0 (mk v) = false).
      { apply (proj1 (find_where_None id conds m) Hfind k r0); auto. }
      rewrite Hmk in Hh. by apply String.eqb_neq in Hh.
    - by apply Hk, (Huniq k id r0 r). }
  intros k1 k2 r1 r2 H1 H2 Heq.
  destruct (decide (k1 = id)) as [->|Hk1], (decide (k2 = id)) as [->|Hk2]; [done|..].
  - rewrite lookup_insert_eq in H1. rewrite lookup_insert_ne in H2 by done.
    injection H1 as <-. by destruct (Hother k2 r2).
  - rewrite lookup_insert_ne in H1 by done. rewrite lookup_insert_eq in H2.
    injection H2 as <-. by destruct (Hother k1 r1).
  - rewrite lookup_insert_ne in H1, H2 by done. by apply (Huniq k1 k2 r1 r2).
Qed.

(** X15. [PATCH] keeps names and slugs unique, provided the body supplies
    no empty string or the columns are unique in the database: from a table
    in which no two tags share a name and no two share a slug, every request
    leads to such a table. *)
Theorem PATCH_keeps_unique
    (safeParse : json → json + TagUpdateData) (unique_columns : bool)
    (auth : option Session) (request_json : option json) (id : string) (db : Database) :
  unique_names db → unique_slugs db →
  (unique_columns = true ∨
   ∀ j data, request_json = Some j → safeParse j = inr data →
             data_name data ≠ Some "" ∧ data_slug data ≠ Some "") →
  unique_names (PATCH safeParse unique_columns auth request_json id db).2 ∧
  unique_slugs (PATCH safeParse unique_columns auth request_json id db).2.
Proof.
  intros Hun Hus Hcond.
  destruct (PATCH _ _ _ _ _ _) as [resp db'] eqn:Hrun. simpl.
  apply PATCH_inv in Hrun
    as [[-> _]|(j & data & r & -> & Hp & _ & Hr & Hq & Hw & -> & _)]; [done|].
  assert (Hfind : find (where_matches id (written {| set_name := data_name data;
                                                     set_slug := data_slug data |}))
                    (map_to_list (tag db)) = None).
  { destruct Hcond as [->|Hne]; [by apply Hw|].
    destruct (Hne j data eq_refl Hp) as [Hn Hs].
    by rewrite written_or_conditions. }
  split.
  - unfold unique_names. simpl.
    apply (update_keeps_unique name NameIs (data_name data)
             (written {| set_name := data_name data; set_slug := data_slug data |})
             id r); try done.
    intros v Hv. unfold written. simpl. rewrite Hv. apply elem_of_app. left.
    by apply list_elem_of_singleton.
  - unfold unique_slugs. simpl.
    apply (update_keeps_unique slug SlugIs (data_slug data)
             (written {| set_name := data_name data; set_slug := data_slug data |})
             id r); try done.
    intros v Hv. unfold written. simpl. rewrite Hv. apply elem_of_app. right.
    by apply list_elem_of_singleton.
Qed.

Lemma PATCH_keeps_unique_witness :
  unique_names (PATCH TagUpdatePayloadSchema false Samples.admin
                  (Some (JObj [("name", JStr "go")])) "t2" Samples.rust_zig).2 ∧
  unique_slugs (PATCH TagUpdatePayloadSchema false Samples.admin
                  (Some (JObj [("name", JStr "go")])) "t2" Samples.rust_zig).2.
Proof.
  apply PATCH_keeps_unique.
  - intros k1 k2 r1 r2 H1 H2 Hn. sample_row H1; sample_row H2; done.
  - intros k1 k2 r1 r2 H1 H2 Hn. sample_row H1; sample_row H2; done.
  - right. intros j data [= <-] [= <-]. by split.
Defined.

(** X16. A successful Update can be sent again: the same request against
    the database it produced is answered with the same response and leaves
    that database as it is. *)
Theorem PATCH_idempotent
    (safeParse : json → json + TagUpdateData) (unique_columns : bool)
    (auth : option Session) (request_json : option json) (id : string)
    (db db' : Database) (resp : NextResponse) :
  PATCH safeParse unique_columns auth request_json id db = (resp, db') →
  status resp = 200%Z →
  PATCH safeParse unique_columns auth request_json id db' = (resp, db').
Proof.
  intros Hrun Hst.
  apply PATCH_inv in Hrun
    as [[_ Herr]|(j & data & r & -> & Hp & Hs & Hr & Hq & Hw & -> & ->)].
  { rewrite Hst in Herr. by destruct Herr as [|[|]]. }
  set (d := {| set_name := data_name data; set_slug := data_slug data |}) in *.
  rewrite (PATCH_validated _ _ _ _ data) by done. simpl.
  rewrite (proj2 (find_where_insert _ _ _ _) Hq).
  unfold update. simpl. rewrite lookup_insert_eq.
  assert (Hu : unique_columns &&
               bool_decide (is_Some (find (where_matches id (written d))
                                       (map_to_list (<[id := apply_update d r]> (tag db)))))
               = false).
  { destruct unique_columns; [|done]. simpl.
    apply bool_decide_eq_false. rewrite <- eq_None_not_Some.
    apply find_where_insert. by apply Hw. }
  fold d. rewrite Hu.
  assert (Hrow : apply_update d (apply_update d r) = apply_update d r).
  { unfold apply_update, d. simpl.
    by destruct (data_name data), (data_slug data). }
  by rewrite Hrow, insert_insert_eq.
Qed.

Lemma PATCH_idempotent_witness :
  let rq := Some (JObj [("slug", JStr "ziglang")]) in
  let out := PATCH TagUpdatePayloadSchema true Samples.admin rq "t2" Samples.rust_zig in
  PATCH TagUpdatePayloadSchema true Samples.admin rq "t2" out.2 = out.
Proof.
  intros rq out.
  rewrite (PATCH_idempotent TagUpdatePayloadSchema true Samples.admin rq "t2"
             Samples.rust_zig out.2 out.1); reflexivity.
Defined.

(** X17. What Update answers is what Retrieve then finds: after an Update
    that answered 200, a Retrieve of the same identifier by any caller with
    a session is answered with the same response, and for a supplied name
    or slug that response carries the supplied value. *)
Theorem PATCH_then_GET
    (safeParse : json → json + TagUpdateData) (unique_columns : bool)
    (auth auth' : option Session) (j : json) (data : TagUpdateData) (id : string)
    (db db' : Database) (resp : NextResponse) :
  PATCH safeParse unique_columns auth (Some j) id db = (resp, db') →
  status resp = 200%Z →
  safeParse j = inr data →
  is_Some (session_user auth') →
  GET auth' id db' = (resp, db') ∧
  ∃ t, body resp = TagBody t ∧ tw_id t = id ∧
       (∀ n, data_name data = Some n → tw_name t = n) ∧
       (∀ s, data_slug data = Some s → tw_slug t = s).
Proof.
  intros Hrun Hst Hp Hs'.
  apply PATCH_inv in Hrun
    as [[_ Herr]|(j' & data' & r & [= <-] & Hp' & _ & Hr & _ & _ & -> & ->)].
  { rewrite Hst in Herr. by destruct Herr as [|[|]]. }
  rewrite Hp in Hp'. injection Hp' as <-.
  split.
  - apply GET_found; [done|]. simpl. apply lookup_insert_eq.
  - eexists. split; [done|]. simpl. split; [done|].
    split; [by intros n ->|by intros s ->].
Qed.

Lemma PATCH_then_GET_witness :
  let out := PATCH TagUpdatePayloadSchema true Samples.admin
               (Some (JObj [("name", JStr "go")])) "t2" Samples.rust_zig in
  GET Samples.guest "t2" out.2 = out ∧
  ∃ t, body out.1 = TagBody t ∧ tw_id t = "t2" ∧
       (∀ n, Some "go" = Some n → tw_name t = n) ∧
       (∀ s, @None string = Some s → tw_slug t = s).
Proof.
  intros out.
  apply (PATCH_then_GET TagUpdatePayloadSchema true Samples.admin Samples.guest
           (JObj [("name", JStr "go")]) {| data_name := Some "go"; data_slug := None |}
           "t2" Samples.rust_zig out.2 out.1); try reflexivity.
  by eexists.
Defined.

(** X18. An Update of an existing tag whose supplied name and slug are
    non-empty and carried by no other tag succeeds: the answer is 200, the
    row holds the supplied values and keeps the omitted ones, and the answer
    carries the row with its post count. *)
Theorem PATCH_fresh_values
    (safeParse : json → json + TagUpdateData) (unique_columns : bool)
    (auth : option Session) (j : json) (data : TagUpdateData)
    (id : string) (r : TagRow) (db : Database) :
  truthy_opt (session_user_id auth) = true →
  safeParse j = inr data →
  tag db !! id = Some r →
  data_name data ≠ Some "" → data_slug data ≠ Some "" →
  ¬ collides db id data →
  let r' := {| name := default (name r) (data_name data);
               slug := default (slug r) (data_slug data) |} in
  PATCH safeParse unique_columns auth (Some j) id db =
    (json_ok (TagBody {| tw_id := id; tw_name := name r'; tw_slug := slug r';
                         tw_count_posts := count_posts db id |}),
     {| tag := <[id := r']> (tag db); postTags := postTags db |}).
Proof.
  intros Hs Hp Hr Hn Hsl Hfree r'.
  rewrite (PATCH_validated _ _ _ _ data) by done.
  assert (Hq : find (where_matches id (or_conditions (data_name data) (data_slug data)))
                 (map_to_list (tag db)) = None).
  { apply eq_None_not_Some. by rewrite existing_iff_collides. }
  rewrite Hq. unfold update. rewrite Hr, written_or_conditions, Hq by done.
  rewrite bool_decide_eq_false_2, andb_false_r by (by intros [? ?]).
  done.
Qed.

Lemma PATCH_fresh_values_witness :
  PATCH TagUpdatePayloadSchema true Samples.admin
    (Some (JObj [("name", JStr "go")])) "t2" Samples.rust_zig =
    (json_ok (TagBody {| tw_id := "t2"; tw_name := "go"; tw_slug := "zig";
                         tw_count_posts := 0 |}),
     {| tag := <["t2" := {| name := "go"; slug := "zig" |}]> (tag Samples.rust_zig);
        postTags := postTags Samples.rust_zig |}).
Proof.
  apply (PATCH_fresh_values _ _ _ _ {| data_name := Some "go"; data_slug := None |}
           "t2" {| name := "zig"; slug := "zig" |}); try reflexivity; try done.
  intros (k & r & Hr & _ & [(n & [= <-] & _ & Hn)|(s & [=] & _)]).
  sample_row Hr; done.
Defined.

End TagRouteMore.

(** ** Further properties of the blog components *)

Module BlogMore.
Import Js Blog Sidebar JsFacts.

Section PostCard.

Variable getAuthorInitial : string → string.
Variable formatPostDate : option Z → Z → string.

Abbreviation PostCard := (PostCard getAuthorInitial formatPostDate).

(** Badges hold text only: no element of another type sits in them. *)
Lemma category_badges_hold_no (ty : string) (cs : list Category) :
  String.eqb "Badge" ty = false →
  flat_map (elements_of ty) (category_badge <$> cs) = [].
Proof.
  intros Hty. induction cs as [|c cs IH]; [done|].
  rewrite fmap_cons. cbn [flat_map]. rewrite IH.
  unfold category_badge. cbn [elements_of flat_map app]. by rewrite Hty.
Qed.

Lemma tag_badges_hold_no (ty : string) (ts : list Tag) :
  String.eqb "Badge" ty = false →
  flat_map (elements_of ty) (tag_badge <$> ts) = [].
Proof.
  intros Hty. induction ts as [|t ts IH]; [done|].
  rewrite fmap_cons. cbn [flat_map]. rewrite IH.
  unfold tag_badge. cbn [elements_of flat_map app]. by rewrite Hty.
Qed.

Lemma excerpt_block_holds_no (ty : string) (e : option string) :
  String.eqb "CardDescription" ty = false →
  elements_of ty (excerpt_block e) = [].
Proof.
  intros Hty. destruct e as [s|]; [|done]. unfold excerpt_block.
  destruct (truthy s); [|done]. cbn [elements_of flat_map app]. by rewrite Hty.
Qed.


(** X20. A post card holds two links, the title and "Read More", in that
    order, and both lead to [/blog/] followed by the slug of the post. *)
Theorem post_card_links (post : Post) :
  elements_of "Link" (PostCard post) =
    [ Element "Link" None [("href", "/blog/" ++ post_slug post)]
        [Text (post_title post)];
      Element "Link" None [("href", "/blog/" ++ post_slug post)]
        [ Element "Button" None
            [("variant", "ghost"); ("size", "sm"); ("className", "w-full")]
            [Text "Read More"] ] ] ∧
  Forall (λ l, prop "href" l = Some ("/blog/" ++ post_slug post))
    (elements_of "Link" (PostCard post)).
Proof.
  assert (Hl : elements_of "Link" (PostCard post) =
    [ Element "Link" None [("href", "/blog/" ++ post_slug post)]
        [Text (post_title post)];
      Element "Link" None [("href", "/blog/" ++ post_slug post)]
        [ Element "Button" None
            [("variant", "ghost"); ("size", "sm"); ("className", "w-full")]
            [Text "Read More"] ] ]).
  { unfold Blog.PostCard.
    cbn [elements_of flat_map String.eqb Ascii.eqb Bool.eqb app].
    rewrite (excerpt_block_holds_no "Link") by done.
    by rewrite category_badges_hold_no, tag_badges_hold_no. }
  split; [done|]. rewrite Hl. by repeat constructor.
Qed.

(** X21. The description block of a post card is there exactly when the
    excerpt is a non-empty string: an excerpt that is the empty string gets
    none, like a null one. *)
Theorem post_card_empty_excerpt (post : Post) :
  (post_excerpt post = Some "" → elements_of "CardDescription" (PostCard post) = []) ∧
  (elements_of "CardDescription" (PostCard post) = [] ↔
   truthy_opt (post_excerpt post) = false).
Proof.
  assert (Hd : elements_of "CardDescription" (PostCard post) =
               elements_of "CardDescription" (excerpt_block (post_excerpt post))).
  { unfold Blog.PostCard.
    cbn [elements_of flat_map String.eqb Ascii.eqb Bool.eqb app].
    rewrite category_badges_hold_no, tag_badges_hold_no by done.
    by rewrite !app_nil_r. }
  rewrite Hd. split.
  - by intros ->.
  - unfold excerpt_block. destruct (post_excerpt post) as [s|]; simpl; [|done].
    by destruct (truthy s).
Qed.

(** X22. The avatar of a post card: the image source is the author's
    image, or the empty string when the author has none, never absent; the
    fallback is rendered in either case and holds the initial that
    [getAuthorInitial] gives for the author's name. *)
Theorem post_card_avatar (post : Post) :
  (∃ img, elements_of "AvatarImage" (PostCard post) = [img] ∧
          prop "src" img = Some (default "" (author_image (post_author post)))) ∧
  elements_of "AvatarFallback" (PostCard post) =
    [Element "AvatarFallback" None []
       [Text (getAuthorInitial (author_name (post_author post)))]].
Proof.
  split.
  - eexists. split.
    + unfold Blog.PostCard.
      cbn [elements_of flat_map String.eqb Ascii.eqb Bool.eqb app].
      rewrite (excerpt_block_holds_no "AvatarImage") by done.
      by rewrite category_badges_hold_no, tag_badges_hold_no.
    + simpl. f_equal. destruct (author_image (post_author post)) as [s|]; simpl; [|done].
      destruct (truthy s) eqn:Ht; [done|].
      apply negb_false_iff, String.eqb_eq in Ht. by subst.
  - unfold Blog.PostCard.
    cbn [elements_of flat_map String.eqb Ascii.eqb Bool.eqb app].
    rewrite (excerpt_block_holds_no "AvatarFallback") by done.
    by rewrite category_badges_hold_no, tag_badges_hold_no.
Qed.

End PostCard.


Lemma post_card_empty_excerpt_witness :
  elements_of "CardDescription"
    (Blog.PostCard (λ _, "R") (λ _ _, "Nov 14, 2023") (Samples.long_post (Some ""))) = [].
Proof.
  by apply (post_card_empty_excerpt (λ _, "R") (λ _ _, "Nov 14, 2023")
              (Samples.long_post (Some ""))).
Defined.

(** *** The category sidebar *)

Lemma links_of_category_links (cs : list CategoryWithCount) :
  flat_map (elements_of "Link") (category_link <$> cs) = category_link <$> cs.
Proof.
  induction cs as [|c cs IH]; [done|].
  rewrite fmap_cons. cbn [flat_map]. by rewrite IH.
Qed.

Lemma badges_of_category_links (cs : list CategoryWithCount) :
  flat_map (elements_of "Badge") (category_link <$> cs) =
  (λ c, Element "Badge" None [("variant", "outline")] [number (count_posts c)]) <$> cs.
Proof.
  induction cs as [|c cs IH]; [done|].
  rewrite !fmap_cons. cbn [flat_map]. by rewrite IH.
Qed.

(** X23. The sidebar links every category it is given, none dropped and in
    the order given, after one link to all posts: the targets are [/blog]
    and then [/blog/category/] followed by the slug of each category. *)
Theorem sidebar_links (categories : list CategoryWithCount) (totalPosts : nat) :
  prop "href" <$> elements_of "Link" (CategoriesSidebar categories totalPosts) =
    Some "/blog" ::
    ((λ c, Some ("/blog/category/" ++ category_slug (category c))) <$> categories) ∧
  List.length (elements_of "Link" (CategoriesSidebar categories totalPosts)) =
    S (List.length categories).
Proof.
  assert (Hl : elements_of "Link" (CategoriesSidebar categories totalPosts) =
               Element "Link" None [("href", "/blog"); ("className", "block")]
                 [sidebar_button "All Posts" totalPosts]
               :: (category_link <$> categories)).
  { unfold CategoriesSidebar.
    cbn [elements_of flat_map String.eqb Ascii.eqb Bool.eqb app sidebar_button number].
    by rewrite links_of_category_links, !app_nil_r. }
  rewrite Hl. split.
  - rewrite fmap_cons. f_equal. rewrite <- list_fmap_compose.
    by apply list_fmap_ext.
  - simpl. by rewrite length_fmap.
Qed.

(** X24. The count badges of the sidebar are, in order, the total number of
    posts and then the post count of each category, each as its decimal
    text. *)
Theorem sidebar_badges (categories : list CategoryWithCount) (totalPosts : nat) :
  elements_of "Badge" (CategoriesSidebar categories totalPosts) =
    (λ n, Element "Badge" None [("variant", "outline")] [Text (pretty n)])
      <$> (totalPosts :: (count_posts <$> categories)).
Proof.
  unfold CategoriesSidebar.
  cbn [elements_of flat_map String.eqb Ascii.eqb Bool.eqb app sidebar_button number].
  rewrite badges_of_category_links, !app_nil_r.
  rewrite fmap_cons. f_equal. by rewrite <- list_fmap_compose.
Qed.

End BlogMore.
